(** * SYF Hotel backend: the booking transaction and the bulk availability update

    The repository holds four versions of one small HTTP service:

    - [Server]      src/server.js, the Supabase server deployed on Render;
    - [FileStore]   src/unnamed/part_000, first file: the JSON file store with
                    an in-memory cache;
    - [Production]  src/unnamed/part_000, second file: the "production-ready"
                    Supabase server;
    - [Schema]      src/unnamed/part_001: the Supabase server for the "updated
                    schema".

    Each handler is embedded as a function from the request and the state of
    the store to the HTTP response and the next state.  The Supabase client is
    the persistence port: its two tables are a finite map and a list, and every
    call may fail, as decided by a plan of outcomes that is part of the state.
    A conversion that throws (an object that cannot be turned into a string)
    leaves the handler through its [catch] clause, as in the source. *)

From stdpp Require Import base option list gmap strings pretty.
From Stdlib Require Import ZArith Lia.
Import Stdlib.Strings.Ascii.

Set Warnings "-register-all".

Local Open Scope Z_scope.

(** ** JavaScript values and the coercions the handlers rely on *)

Module JS.

(** A number as the handlers meet it: an integer, NaN or an infinity.
    Fractions are outside the model.  [Int z] is the number that the JSON
    numeral [z] denotes, which is the double nearest to [z]. *)
Inductive num : Type :=
  | Int (z : Z)
  | NaN
  | Inf (negative : bool).

(** What [express.json()] puts in [req.body], and what [JSON.parse] reads from
    a file; [Undefined] is what reading a missing property gives.  A string is
    held as the bytes of its UTF-8 encoding. *)
Inductive value : Type :=
  | Undefined
  | Null
  | Bool (b : bool)
  | Num (n : num)
  | Str (s : string)
  | Arr (l : list value)
  | Obj (fields : list (string * value)).

Definition num_truthy (n : num) : bool :=
  match n with
  | Int z => negb (z =? 0)
  | NaN => false
  | Inf _ => true
  end.

(** ToBoolean. *)
Definition truthy (v : value) : bool :=
  match v with
  | Undefined | Null => false
  | Bool b => b
  | Num n => num_truthy n
  | Str s => negb (String.eqb s "")
  | Arr _ | Obj _ => true
  end.

(** [a || b] on values and on numbers. *)
Definition or (a b : value) : value := if truthy a then a else b.
Definition num_or (a : num) (b : num) : num := if num_truthy a then a else b.

(** [a < b] and [a - b] on numbers: a comparison with NaN is false, a
    difference with NaN is NaN.  The difference of two integers is taken
    exactly, as the handlers compute it for counts and quantities below
    2^53. *)
Definition lt (a b : num) : bool :=
  match a, b with
  | Int x, Int y => x <? y
  | Int _, Inf negative => negb negative
  | Inf negative, Int _ => negative
  | Inf x, Inf y => x && negb y
  | _, _ => false
  end.

Definition sub (a b : num) : num :=
  match a, b with
  | Int x, Int y => Int (x - y)
  | Int _, Inf negative => Inf (negb negative)
  | Inf negative, Int _ => Inf negative
  | Inf x, Inf y => if Bool.eqb x y then NaN else Inf x
  | _, _ => NaN
  end.

Definition isNaN (n : num) : bool :=
  match n with
  | NaN => true
  | _ => false
  end.

(** The double nearest to an integer, ties going to the even significand of
    53 bits; an infinity from 2^1024 on. *)
Definition double (z : Z) : num :=
  let a := Z.abs z in
  if a <? 2 ^ 53 then Int z
  else
    let e := Z.log2 a - 52 in
    let m := Z.shiftr a e in
    let r := a - Z.shiftl m e in
    let half := Z.shiftl 1 (e - 1) in
    let m' := if (half <? r) || ((r =? half) && Z.odd m) then m + 1 else m in
    let v := Z.shiftl m' e in
    if 2 ^ 1024 <=? v then Inf (z <? 0) else Int (Z.sgn z * v).

Definition is_double (x : Z) (n : num) : bool :=
  match n with
  | Int y => x =? y
  | _ => false
  end.

(** Number::toString for a double [x] from 2^53 on.  [candidate x n k] is the
    integer [s] of [k] digits for which [s * 10^(n-k)] is nearest to [x] among
    those that denote the double [x], if there is one. *)
Definition candidate (x n k : Z) : option Z :=
  let p := 10 ^ (n - k) in
  let lo := x / p in
  let hi := lo + 1 in
  let fits s := (10 ^ (k - 1) <=? s) && (s <? 10 ^ k) && is_double x (double (s * p)) in
  match fits lo, fits hi with
  | true, true =>
      if x - lo * p <? hi * p - x then Some lo
      else if hi * p - x <? x - lo * p then Some hi
      else if Z.even lo then Some lo else Some hi
  | true, false => Some lo
  | false, true => Some hi
  | false, false => None
  end.

(** The digits [s], their number [k] and the exponent [n], [k] being as small
    as possible; [len] is the number of digits of [x].  Seventeen digits
    always do. *)
Fixpoint shortest (fuel : nat) (x len k : Z) : Z * Z * Z :=
  match fuel with
  | O => (x, len, len)
  | S fuel' =>
      match candidate x len k, candidate x (len + 1) k with
      | Some s, _ => (s, k, len)
      | None, Some s => (s, k, len + 1)
      | None, None => shortest fuel' x len (k + 1)
      end
  end.

Fixpoint zeros (n : nat) : string :=
  match n with
  | O => ""
  | S n' => String "0" (zeros n')
  end.

(** Decimal notation up to 21 digits, exponent notation beyond. *)
Definition large_to_string (x : Z) : string :=
  let len := Z.of_nat (String.length (pretty x)) in
  let '(s, k, n) := shortest 17 x len 1 in
  if n <=? 21 then pretty s +:+ zeros (Z.to_nat (n - k))
  else
    match pretty s with
    | String d "" => String d "" +:+ "e+" +:+ pretty (n - 1)
    | String d rest => String d "" +:+ "." +:+ rest +:+ "e+" +:+ pretty (n - 1)
    | EmptyString => ""
    end.

Definition num_to_string (n : num) : string :=
  match n with
  | Int z =>
      if Z.abs z <? 2 ^ 53 then pretty z
      else match double z with
           | Int x => (if x <? 0 then "-" else "") +:+ large_to_string (Z.abs x)
           | _ => if z <? 0 then "-Infinity" else "Infinity"
           end
  | NaN => "NaN"
  | Inf negative => if negative then "-Infinity" else "Infinity"
  end.

(** The message of the TypeError that a failed conversion throws. *)
Definition type_error : string := "Cannot convert object to primitive value".

Definition has_own (fields : list (string * value)) (k : string) : bool :=
  existsb (λ f, String.eqb f.1 k) fields.

(** ToString; [None] when it throws.  An array is its elements joined by
    commas, with null and undefined elements left empty.  A parsed object
    inherits [toString] from [Object.prototype] unless it has a property of
    that name of its own, which is no function: then the conversion throws. *)
Fixpoint to_string (v : value) : option string :=
  match v with
  | Undefined => Some "undefined"
  | Null => Some "null"
  | Bool true => Some "true"
  | Bool false => Some "false"
  | Num n => Some (num_to_string n)
  | Str s => Some s
  | Arr l =>
      (fix join (l : list value) : option string :=
         match l with
         | [] => Some ""
         | x :: l' =>
             match match x with
                   | Undefined | Null => Some ""
                   | _ => to_string x
                   end with
             | None => None
             | Some e =>
                 match l' with
                 | [] => Some e
                 | _ :: _ =>
                     match join l' with
                     | None => None
                     | Some r => Some (e +:+ "," +:+ r)
                     end
                 end
             end
         end) l
  | Obj fields => if has_own fields "toString" then None else Some "[object Object]"
  end.

(** [a === b]; a parsed array or object is never identical to another value. *)
Definition strict_eq (a b : value) : bool :=
  match a, b with
  | Undefined, Undefined => true
  | Null, Null => true
  | Bool x, Bool y => Bool.eqb x y
  | Num (Int x), Num (Int y) => is_double x (double y) || is_double y (double x)
  | Num (Inf x), Num (Inf y) => Bool.eqb x y
  | Str x, Str y => String.eqb x y
  | _, _ => false
  end.

(** White space and line terminators, which [parseInt] and [trim] skip: the
    six of ASCII, then U+00A0, and the ones of three bytes (U+1680, U+2000 to
    U+200A, U+2028, U+2029, U+202F, U+205F, U+3000, U+FEFF). *)
Definition is_space (a : ascii) : bool :=
  match N_of_ascii a with
  | 9%N | 10%N | 11%N | 12%N | 13%N | 32%N => true
  | _ => false
  end.

Definition is_space2 (a b : ascii) : bool :=
  match N_of_ascii a, N_of_ascii b with
  | 194%N, 160%N => true
  | _, _ => false
  end.

Definition is_space3 (a b c : ascii) : bool :=
  match N_of_ascii a, N_of_ascii b, N_of_ascii c with
  | 225%N, 154%N, 128%N => true
  | 226%N, 128%N, n => (128 <=? n)%N && (n <=? 138)%N || (n =? 168)%N || (n =? 169)%N
                       || (n =? 175)%N
  | 226%N, 129%N, 159%N => true
  | 227%N, 128%N, 128%N => true
  | 239%N, 187%N, 191%N => true
  | _, _, _ => false
  end.

(** The string without the white space it starts with; [backwards] is for a
    string read from its end. *)
Fixpoint skip_space (backwards : bool) (s : string) : string :=
  match s with
  | String a r =>
      if is_space a then skip_space backwards r
      else
        match r with
        | String b r1 =>
            if (if backwards then is_space2 b a else is_space2 a b)
            then skip_space backwards r1
            else
              match r1 with
              | String c r2 =>
                  if (if backwards then is_space3 c b a else is_space3 a b c)
                  then skip_space backwards r2
                  else s
              | EmptyString => s
              end
        | EmptyString => s
        end
  | EmptyString => EmptyString
  end.

Definition trim_start (s : string) : string := skip_space false s.

Definition trim_end (s : string) : string := String.rev (skip_space true (String.rev s)).

(** [s.trim()] *)
Definition trim (s : string) : string := trim_end (trim_start s).

(** The value of a character as a digit of the radix, if it is one. *)
Definition digit (radix : Z) (a : ascii) : option Z :=
  let c := Z.of_N (N_of_ascii a) in
  let d := if (48 <=? c) && (c <=? 57) then Some (c - 48)
           else if (97 <=? c) && (c <=? 122) then Some (c - 87)
           else if (65 <=? c) && (c <=? 90) then Some (c - 55)
           else None in
  match d with
  | Some n => if n <? radix then Some n else None
  | None => None
  end.

(** The longest prefix of digits, read in the radix; [acc] is [None] until a
    digit has been read. *)
Fixpoint digits (radix : Z) (s : string) (acc : option Z) : option Z :=
  match s with
  | String a s' =>
      match digit radix a with
      | Some d => digits radix s' (Some (radix * default 0 acc + d))
      | None => acc
      end
  | EmptyString => acc
  end.

(** A string of decimal digits. *)
Fixpoint all_digits (s : string) : Prop :=
  match s with
  | String a r => is_Some (digit 10 a) ∧ all_digits r
  | EmptyString => True
  end.

(** A leading sign, and whether it is a minus. *)
Definition strip_sign (s : string) : bool * string :=
  match s with
  | String "-" r => (true, r)
  | String "+" r => (false, r)
  | _ => (false, s)
  end.

(** A leading [0x] or [0X], which makes the radix 16. *)
Definition strip_prefix (s : string) : Z * string :=
  match s with
  | String "0" (String "x" r) | String "0" (String "X" r) => (16, r)
  | _ => (10, s)
  end.

(** [parseInt(s)] on a string, without a radix argument: leading white space,
    a sign, a [0x] prefix, then digits, whose value is rounded to a double;
    NaN when no digit follows. *)
Definition parseInt_string (s : string) : num :=
  let '(neg, s2) := strip_sign (trim_start s) in
  let '(radix, s3) := strip_prefix s2 in
  match digits radix s3 None with
  | Some n => double (if neg then - n else n)
  | None => NaN
  end.

(** [parseInt(v)]: the argument is first converted to a string, which may
    throw. *)
Definition parseInt (v : value) : option num := parseInt_string <$> to_string v.

(** [haystack.includes(needle)] *)
Fixpoint includes (haystack needle : string) : bool :=
  String.prefix needle haystack ||
  match haystack with
  | String _ h' => includes h' needle
  | EmptyString => false
  end.

(** Whether some string inside a JSON value includes the needle. *)
Fixpoint mentions (v : value) (needle : string) : bool :=
  match v with
  | Str s => includes s needle
  | Arr l => existsb (λ x, mentions x needle) l
  | Obj fields =>
      (fix any (fields : list (string * value)) : bool :=
         match fields with
         | [] => false
         | (_, x) :: rest => mentions x needle || any rest
         end) fields
  | _ => false
  end.

(** [b.k] for a request body and a property name written in the source, none
    of which is a name that objects inherit: undefined when the object has no
    such property. *)
Definition get (b : gmap string value) (k : string) : value :=
  default Undefined (b !! k).

(** The names that every object inherits from [Object.prototype]. *)
Definition inherited (k : string) : bool :=
  bool_decide (k ∈ ["constructor"; "toString"; "toLocaleString"; "valueOf";
                    "hasOwnProperty"; "isPrototypeOf"; "propertyIsEnumerable";
                    "__defineGetter__"; "__defineSetter__"; "__lookupGetter__";
                    "__lookupSetter__"; "__proto__"]).

(** [o[k]] for a name computed at run time: a property of the object itself,
    one inherited from [Object.prototype] (a built-in function, or the
    prototype itself under [__proto__]), or none. *)
Inductive property : Type :=
  | Own (v : value)
  | Inherited
  | Missing.

Definition lookup (o : gmap string value) (k : string) : property :=
  match o !! k with
  | Some v => Own v
  | None => if inherited k then Inherited else Missing
  end.

(** [o[k] !== undefined] *)
Definition defined (p : property) : bool :=
  match p with
  | Own Undefined | Missing => false
  | _ => true
  end.

(** [parseInt(o[k])]: the text of a built-in function and of the prototype
    start with no digit. *)
Definition parseInt_property (p : property) : option num :=
  match p with
  | Own v => parseInt v
  | Inherited => Some NaN
  | Missing => parseInt Undefined
  end.

(** [o[k] = n] for a number [n]: the inherited setter of [__proto__] ignores
    a number, so that no property is created under that name; one that is
    already there is overwritten. *)
Definition assign (o : gmap string value) (k : string) (n : num) : gmap string value :=
  if String.eqb k "__proto__" && bool_decide (o !! k = None) then o
  else <[k := Num n]> o.

(** Whether a string is made of decimal digits only. *)
Fixpoint is_digits (s : string) : bool :=
  match s with
  | String a r =>
      match digit 10 a with
      | Some _ => is_digits r
      | None => false
      end
  | EmptyString => true
  end.

(** The entries of an object whose values can all be converted to a string,
    so that [parseInt] throws on none of them. *)
Definition convertible (entries : list (string * value)) : Prop :=
  ∀ k v, (k, v) ∈ entries → is_Some (parseInt v).

(** [Math.max(0, x)] *)
Definition max0 (x : num) : num :=
  match x with
  | Int z => Int (Z.max 0 z)
  | NaN => NaN
  | Inf negative => if negative then Int 0 else Inf false
  end.

End JS.

(** ** The persistence port of the Supabase versions *)

Module Store.
Import JS.

(** A row of the [bookings] table as the three Supabase versions build it. *)
Record booking : Type := {
  full_name : value;
  phone : value;
  room_category : value;
  number_of_rooms : num;
  check_in : value;
  check_out : value;
  payment_amount : num;
  payment_channel : value;
  transaction_id : value;
  coming_with_id : bool;
  additional_requests : value
}.

(** Modelled from the spec: the schema of the hosted tables is not in the
    repository.  Following the data model of the specification, [rooms] has one
    row per room type and [available] is an integer column that holds no NULL.
    [calls] counts the calls made to the store so far and [outcome] plans the
    outcome of every call by its number: [Some message] makes the call fail
    with that message and without effect, [None] lets it through. *)
Record db : Type := {
  rooms : gmap string Z;
  bookings : list booking;
  calls : nat;
  outcome : nat → option string
}.

(** The state monad of the calls to the store. *)
Definition M (A : Type) : Type := db → A * db.

#[global] Instance M_ret : MRet M := λ A a s, (a, s).
#[global] Instance M_bind : MBind M :=
  λ A B f m s, let '(a, s') := m s in f a s'.

(** What an awaited call resolves to: [{ data, error }], the error being
    given by its message. *)
Record reply (A : Type) : Type := { data : option A; error : option string }.
Arguments data {A} _.
Arguments error {A} _.

(** The state after one more call, after a write to [rooms] and after a row
    has been added to [bookings]. *)
Definition tick (s : db) : db :=
  {| rooms := rooms s; bookings := bookings s; calls := S (calls s); outcome := outcome s |}.

Definition with_room (rt : string) (n : Z) (s : db) : db :=
  {| rooms := <[rt := n]> (rooms s); bookings := bookings s;
     calls := calls s; outcome := outcome s |}.

Definition with_booking (r : booking) (s : db) : db :=
  {| rooms := rooms s; bookings := bookings s ++ [r];
     calls := calls s; outcome := outcome s |}.

(** The outcome planned for the call that starts now. *)
Definition next_outcome : M (option string) := λ s, (outcome s (calls s), tick s).

Definition put_room (rt : string) (n : Z) : M unit := λ s, (tt, with_room rt n s).

Definition add_booking (r : booking) : M unit := λ s, (tt, with_booking r s).

Definition read_room (rt : string) : M (option Z) := λ s, (rooms s !! rt, s).

(** The outcome planned for the [i]-th call from now, and a plan in which
    none of the next [n] calls fails. *)
Definition planned (i : nat) (s : db) : option string := outcome s (i + calls s)%nat.

Definition quiet (n : nat) (s : db) : Prop := ∀ i, (i < n)%nat → planned i s = None.

(** The invariant of the ledger: no room type has a negative count. *)
Definition nonneg (m : gmap string Z) : Prop := ∀ rt n, m !! rt = Some n → 0 ≤ n.

(** The message of [.single()] when the filter matches no row. *)
Definition no_rows : string := "JSON object requested, multiple (or no) rows returned".

(** The message of an update that would store NULL in [available]: NaN and
    the infinities are serialised as [null]. *)
Definition null_available : string :=
  "null value in column available violates not-null constraint".

(** [supabase.from('rooms').select('available').eq('room_type', rt).single()] *)
Definition select_available (rt : string) : M (reply Z) :=
  o ← next_outcome;
  match o with
  | Some e => mret {| data := None; error := Some e |}
  | None =>
      r ← read_room rt;
      match r with
      | Some n => mret {| data := Some n; error := None |}
      | None => mret {| data := None; error := Some no_rows |}
      end
  end.

(** [supabase.from('rooms').update({ available: v }).eq('room_type', rt).select()]:
    the rows updated, none when the filter matches no row (which is no error). *)
Definition update_available_select (rt : string) (v : num) : M (reply (list (string * Z))) :=
  o ← next_outcome;
  match o with
  | Some e => mret {| data := None; error := Some e |}
  | None =>
      r ← read_room rt;
      match r, v with
      | None, _ => mret {| data := Some []; error := None |}
      | Some _, Int n => _ ← put_room rt n; mret {| data := Some [(rt, n)]; error := None |}
      | Some _, _ => mret {| data := None; error := Some null_available |}
      end
  end.

(** [supabase.from('rooms').update({ available: v }).eq('room_type', rt)] *)
Definition update_available (rt : string) (v : num) : M (option string) :=
  r ← update_available_select rt v; mret (error r).

(** [supabase.from('bookings').insert([r])], with or without
    [.select().single()]: the row inserted. *)
Definition insert_booking (r : booking) : M (reply booking) :=
  o ← next_outcome;
  match o with
  | Some e => mret {| data := None; error := Some e |}
  | None => _ ← add_booking r; mret {| data := Some r; error := None |}
  end.

(** [supabase.from('rooms').select('room_type, available').order(...)]: the
    rows of the table.  The model does not fix their order; the object that
    the handlers build from them does not depend on it. *)
Definition select_rooms : M (reply (list (string * Z))) :=
  o ← next_outcome;
  match o with
  | Some e => mret {| data := None; error := Some e |}
  | None => λ s, ({| data := Some (map_to_list (rooms s)); error := None |}, s)
  end.

(** [.single()] after [.select()]: exactly one row, or the error of
    [no_rows]. *)
Definition single {A} (r : reply (list A)) : reply A :=
  match error r, data r with
  | Some e, _ => {| data := None; error := Some e |}
  | None, Some [row] => {| data := Some row; error := None |}
  | None, _ => {| data := None; error := Some no_rows |}
  end.

(** [data.forEach(r => availMap[r.room_type] = r.available)] from [{}]: an
    assignment under the name [__proto__] creates no property. *)
Definition availability_object (rows : list (string * Z)) : gmap string Z :=
  foldl (λ availMap r, if String.eqb r.1 "__proto__" then availMap
                       else <[r.1 := r.2]> availMap) ∅ rows.

(** [res.status(status).json(body)] *)
Record response : Type := { status : Z; body : value }.

(** The body of a [try] block: it runs to a result or to a [throw], the
    error thrown being given by its message. *)
Inductive completion (A : Type) : Type :=
  | Normal (a : A)
  | Thrown (message : string).
Arguments Normal {A} _.
Arguments Thrown {A} _.

Definition T (A : Type) : Type := db → completion A * db.

#[global] Instance T_ret : MRet T := λ A a s, (Normal a, s).
#[global] Instance T_bind : MBind T :=
  λ A B f m s,
    match m s with
    | (Normal a, s') => f a s'
    | (Thrown e, s') => (Thrown e, s')
    end.

(** An awaited call inside the block, [throw], a conversion that throws a
    TypeError when it fails, and [try { body } catch (err) { handler }]. *)
Definition lift {A} (m : M A) : T A := λ s, (Normal (m s).1, (m s).2).

Definition throw {A} (message : string) : T A := λ s, (Thrown message, s).

Definition convert {A} (o : option A) : T A :=
  match o with
  | Some a => mret a
  | None => throw type_error
  end.

Definition catch {A} (body : T A) (handler : string → A) : M A :=
  λ s, match body s with
       | (Normal a, s') => (a, s')
       | (Thrown e, s') => (handler e, s')
       end.

(** A row as a JSON object. *)
Definition booking_value (r : booking) : value :=
  Obj [("room_category", room_category r);
       ("number_of_rooms", Num (number_of_rooms r));
       ("check_in", check_in r);
       ("check_out", check_out r);
       ("full_name", full_name r);
       ("phone", phone r);
       ("coming_with_id", Bool (coming_with_id r));
       ("payment_amount", Num (payment_amount r));
       ("payment_channel", payment_channel r);
       ("transaction_id", transaction_id r);
       ("additional_requests", additional_requests r)].

Definition room_value (r : string * Z) : value :=
  Obj [("room_type", Str r.1); ("available", Num (Int r.2))].

End Store.

(** ** src/server.js *)

Module Server.
Import JS Store.

(** The value that [.eq('room_type', b.room_type)] filters on: the filter is
    built as text, which converts the room type to a string. *)
Definition room_type (b : gmap string value) : option string :=
  to_string (get b "room_type").

(** [parseInt(b.quantity) || 1] *)
Definition qty (b : gmap string value) : option num :=
  n ← parseInt (get b "quantity"); Some (num_or n (Int 1)).

Definition record (b : gmap string value) : option booking :=
  qty ← qty b;
  amount ← parseInt (get b "total_amount");
  Some {| full_name := or (get b "guest_name") (get b "full_name");
          phone := or (get b "contact_number") (get b "phone");
          room_category := get b "room_type";
          number_of_rooms := qty;
          check_in := get b "check_in";
          check_out := get b "check_out";
          payment_amount := num_or amount (Int 0);
          payment_channel := get b "payment_channel";
          transaction_id := or (get b "reference_number") (get b "transaction_id");
          coming_with_id := strict_eq (get b "valid_id") (Str "Yes");
          additional_requests := get b "additional_requests" |}.

(** The [catch] clause of the booking handler. *)
Definition caught (message : string) : response :=
  {| status := 500;
     body := Obj [("error", Str "Internal server error"); ("details", Str message)] |}.

Definition not_found : response :=
  {| status := 404; body := Obj [("error", Str "Room type not found")] |}.

Definition sold_out : response :=
  {| status := 400; body := Obj [("error", Str "Room category sold out")] |}.

Definition confirmed : response :=
  {| status := 200; body := Obj [("success", Bool true); ("message", Str "Booking confirmed")] |}.

(** "Update Stock": the write that takes [qty] rooms out of [available]. *)
Definition update_stock (room_type : string) (available : Z) (qty : num) : M (option string) :=
  update_available room_type (sub (Int available) qty).

(** "Rollback": the write that puts back the count read before the update. *)
Definition rollback (room_type : string) (available : Z) : M (option string) :=
  update_available room_type (Int available).

(** [app.post('/api/bookings', ...)].  The conversions are made where the
    source makes them: the guest name for the log line, the room type for the
    filter, the quantity after the lookup and the amount, in the record, after
    the stock has been written. *)
Definition post_bookings (b : gmap string value) : M response :=
  catch
    (_ ← convert (to_string (get b "guest_name"));
     room_type ← convert (room_type b);
     r ← lift (select_available room_type);
     match error r, data r with
     | None, Some available =>
         qty ← convert (qty b);
         if lt (Int available) qty then mret sold_out
         else
           updErr ← lift (update_stock room_type available qty);
           match updErr with
           | Some e => throw e
           | None =>
               record ← convert (record b);
               ins ← lift (insert_booking record);
               match error ins with
               | Some e => _ ← lift (rollback room_type available); throw e
               | None => mret confirmed
               end
           end
     | _, _ => mret not_found
     end)
    caught.

(** [parseInt(count) || 0], the count that the bulk update writes. *)
Definition available_of (count : value) : option num :=
  n ← parseInt count; Some (num_or n (Int 0)).

(** The loop of the bulk update over [Object.entries(updates)]; [results]
    holds the two arrays [results.success] and [results.errors]. *)
Fixpoint bulk_loop (updates : list (string * value)) (results : list string * list string)
  : T (list string * list string) :=
  match updates with
  | [] => mret results
  | (room, count) :: rest =>
      available ← convert (available_of count);
      e ← lift (update_available (trim room) available);
      bulk_loop rest
        match e with
        | Some message => (results.1, results.2 ++ [room +:+ ": " +:+ message])
        | None => (results.1 ++ [room], results.2)
        end
  end.

Definition sync_failed : response :=
  {| status := 500; body := Obj [("error", Str "Sync failed")] |}.

(** [app.post('/api/rooms/bulk-update', ...)], for a body that is an object. *)
Definition bulk_update (updates : list (string * value)) : M response :=
  catch
    (results ← bulk_loop updates ([], []);
     if (0 <? Z.of_nat (length results.2))
     then mret {| status := 207;
                  body := Obj [("success", Bool (0 <? Z.of_nat (length results.1)));
                               ("errors", Arr (Str <$> results.2))] |}
     else mret {| status := 200;
                  body := Obj [("success", Bool true); ("message", Str "All rooms synced")] |})
    (λ _, sync_failed).

(** [app.get('/api/availability', ...)]: the object sent, or the response of
    the [catch] clause. *)
Definition get_availability : M (gmap string Z + response) :=
  r ← select_rooms;
  match error r with
  | Some _ =>
      mret (inr {| status := 500; body := Obj [("error", Str "Database fetch failed")] |})
  | None => mret (inl (availability_object (default [] (data r))))
  end.

End Server.

(** ** src/unnamed/part_000, second file: the "production-ready" server *)

Module Production.
Import JS Store.

(** The value that [.eq('room_type', b.room_type)] filters on. *)
Definition room_type (b : gmap string value) : option string :=
  to_string (get b "room_type").

(** [parseInt(b.quantity) || 1] *)
Definition quantity (b : gmap string value) : option num :=
  n ← parseInt (get b "quantity"); Some (num_or n (Int 1)).

Definition bookingRecord (b : gmap string value) : option booking :=
  quantity ← quantity b;
  amount ← parseInt (or (get b "total_amount") (get b "payment_amount"));
  Some {| room_category := get b "room_type";
          number_of_rooms := quantity;
          check_in := get b "check_in";
          check_out := get b "check_out";
          full_name := or (get b "guest_name") (get b "full_name");
          phone := or (get b "contact_number") (get b "phone");
          coming_with_id :=
            strict_eq (get b "valid_id") (Str "Yes")
            || strict_eq (get b "coming_with_id") (Bool true);
          payment_amount := num_or amount (Int 0);
          payment_channel := get b "payment_channel";
          transaction_id := or (get b "reference_number") (get b "transaction_id");
          additional_requests := get b "additional_requests" |}.

Definition caught (message : string) : response :=
  {| status := 500;
     body := Obj [("error", Str "Internal Server Error"); ("details", Str message)] |}.

Definition not_found : response :=
  {| status := 400; body := Obj [("error", Str "Room category not found")] |}.

Definition sold_out : response :=
  {| status := 400; body := Obj [("error", Str "Room category sold out")] |}.

Definition confirmed : response :=
  {| status := 200;
     body := Obj [("success", Bool true); ("message", Str "Booking confirmed and saved.")] |}.

(** "2. Decrement Cloud Stock" *)
Definition decrement_stock (room_type : string) (available : Z) (quantity : num)
  : M (option string) :=
  update_available room_type (sub (Int available) quantity).

(** "Rollback availability if booking fails" *)
Definition rollback (room_type : string) (available : Z) : M (option string) :=
  update_available room_type (Int available).

(** [app.post('/api/bookings', ...)] *)
Definition post_bookings (b : gmap string value) : M response :=
  catch
    (room_type ← convert (room_type b);
     r ← lift (select_available room_type);
     match error r, data r with
     | None, Some available =>
         quantity ← convert (quantity b);
         if lt (Int available) quantity then mret sold_out
         else
           updErr ← lift (decrement_stock room_type available quantity);
           match updErr with
           | Some e => throw e
           | None =>
               bookingRecord ← convert (bookingRecord b);
               ins ← lift (insert_booking bookingRecord);
               match error ins with
               | Some e => _ ← lift (rollback room_type available); throw e
               | None => mret confirmed
               end
           end
     | _, _ => mret not_found
     end)
    caught.

(** [stats = { success, failed, errors }] *)
Record stats : Type := { success : Z; failed : Z; errors : list string }.

Definition fail (st : stats) (line : string) : stats :=
  {| success := success st; failed := failed st + 1; errors := errors st ++ [line] |}.

Definition succeed (st : stats) : stats :=
  {| success := success st + 1; failed := failed st; errors := errors st |}.

(** The loop of the bulk update over [Object.entries(updates)]. *)
Fixpoint bulk_loop (updates : list (string * value)) (st : stats) : T stats :=
  match updates with
  | [] => mret st
  | (roomType, count) :: rest =>
      let trimmedRoom := trim roomType in
      availCount ← convert (parseInt count);
      if isNaN availCount
      then bulk_loop rest (fail st (trimmedRoom +:+ ": Invalid number"))
      else
        r ← lift (update_available_select trimmedRoom availCount);
        match error r with
        | Some message => bulk_loop rest (fail st (trimmedRoom +:+ ": " +:+ message))
        | None => bulk_loop rest (succeed st)
        end
  end.

Definition stats_value (st : stats) : value :=
  Obj [("success", Num (Int (success st)));
       ("failed", Num (Int (failed st)));
       ("errors", Arr (Str <$> errors st))].

(** [{ success: 0, failed: 0, errors: [] }] *)
Definition no_stats : stats := {| success := 0; failed := 0; errors := [] |}.

Definition partially_completed (st : stats) : response :=
  {| status := 207;
     body := Obj [("success", Bool (0 <? success st));
                  ("message", Str "Update partially completed");
                  ("stats", stats_value st)] |}.

Definition all_updated : response :=
  {| status := 200;
     body := Obj [("success", Bool true); ("message", Str "All rooms updated successfully.")] |}.

Definition update_failed (message : string) : response :=
  {| status := 500;
     body := Obj [("error", Str "Failed to update rooms"); ("details", Str message)] |}.

(** [app.post('/api/rooms/bulk-update', ...)], for a body that is an object. *)
Definition bulk_update (updates : list (string * value)) : M response :=
  catch
    match updates with
    | [] => mret {| status := 400; body := Obj [("error", Str "No update data provided")] |}
    | _ :: _ =>
        st ← bulk_loop updates no_stats;
        if 0 <? failed st then mret (partially_completed st) else mret all_updated
    end
    update_failed.



(** [app.get('/api/availability', ...)]: the object sent, or the response of
    the [catch] clause. *)
Definition get_availability : M (gmap string Z + response) :=
  r ← select_rooms;
  match error r with
  | Some message =>
      mret (inr {| status := 500;
                   body := Obj [("error", Str "Failed to fetch availability");
                                ("details", Str message)] |})
  | None => mret (inl (availability_object (default [] (data r))))
  end.

End Production.

(** ** src/unnamed/part_001: the server for the "updated schema" *)

Module Schema.
Import JS Store.

(** The request parsed under the old and the new field names; the two calls
    of [parseInt] may throw. *)
Definition booking_of (b : gmap string value) : option booking :=
  number_of_rooms ←
    parseInt (or (or (or (get b "number_of_rooms") (get b "Number of Rooms"))
                     (get b "quantity")) (Num (Int 1)));
  payment_amount ←
    parseInt (or (or (or (get b "payment_amount") (get b "Payment Amount"))
                     (get b "total_amount")) (Num (Int 0)));
  Some {| room_category :=
            or (or (or (get b "room_category") (get b "Room Type")) (get b "room_type"))
               (Str "");
          number_of_rooms := number_of_rooms;
          check_in := or (or (get b "check_in") (get b "Check In")) (Str "");
          check_out := or (or (get b "check_out") (get b "Check Out")) (Str "");
          full_name :=
            or (or (or (get b "full_name") (get b "Guest Name")) (get b "guest_name"))
               (Str "");
          phone :=
            or (or (or (get b "phone") (get b "Guest Phone")) (get b "contact_number"))
               (Str "");
          coming_with_id :=
            strict_eq (get b "coming_with_id") (Bool true)
            || strict_eq (get b "coming_with_id") (Str "true")
            || strict_eq (get b "Valid Id") (Str "Yes")
            || strict_eq (get b "valid_id") (Str "Yes");
          payment_amount := payment_amount;
          payment_channel :=
            or (or (get b "payment_channel") (get b "Payment Method")) (Str "");
          transaction_id :=
            or (or (or (get b "transaction_id") (get b "Reference Number"))
                   (get b "reference_number")) (Str "");
          additional_requests :=
            or (or (get b "additional_requests") (get b "Additional Requests")) (Str "") |}.

(** The [catch] clause of the booking handler. *)
Definition caught (message : string) : response :=
  {| status := 500;
     body := Obj [("error", Str "Failed to process booking"); ("details", Str message)] |}.

(** The rejection for lack of stock; [roomCategory] is the room category as
    the template prints it. *)
Definition not_enough (currentStock : Z) (roomCategory : string) : response :=
  {| status := 400;
     body := Obj [("error",
                   Str ("Sorry, not enough rooms available. Only "
                        +:+ num_to_string (Int currentStock) +:+ " "
                        +:+ roomCategory +:+ "(s) remaining."))] |}.

Definition confirmed (insertedBooking : option booking) (newStock : num) : response :=
  {| status := 200;
     body := Obj [("success", Bool true);
                  ("message", Str "Booking confirmed! Your reservation has been saved.");
                  ("booking", from_option booking_value Null insertedBooking);
                  ("remainingRooms", Num newStock)] |}.

(** [booking.room_category], and the text that the log line prints and that
    [.eq('room_type', roomCategory)] filters on. *)
Definition roomCategory (b : gmap string value) : option value :=
  room_category <$> booking_of b.

Definition room_type (b : gmap string value) : option string :=
  booking ← booking_of b; to_string (room_category booking).

(** [booking.number_of_rooms] *)
Definition requestedQty (b : gmap string value) : option num :=
  number_of_rooms <$> booking_of b.

(** "Step 3: Decrement availability" *)
Definition decrement_availability (room_type : string) (newStock : num) : M (option string) :=
  update_available room_type newStock.

(** "Rollback: restore availability if booking insert fails" *)
Definition rollback (room_type : string) (currentStock : Z) : M (option string) :=
  update_available room_type (Int currentStock).

(** [app.post('/api/bookings', ...)] *)
Definition post_bookings (b : gmap string value) : M response :=
  catch
    (booking ← convert (booking_of b);
     let requestedQty := number_of_rooms booking in
     room_type ← convert (to_string (room_category booking));
     r ← lift (select_available room_type);
     match error r, data r with
     | Some e, _ => throw e
     | None, None => throw "Cannot read properties of null (reading 'available')"
     | None, Some currentStock =>
         if lt (Int currentStock) requestedQty
         then mret (not_enough currentStock room_type)
         else
           let newStock := sub (Int currentStock) requestedQty in
           updateError ← lift (decrement_availability room_type newStock);
           match updateError with
           | Some e => throw e
           | None =>
               ins ← lift (insert_booking booking);
               match error ins with
               | Some e => _ ← lift (rollback room_type currentStock); throw e
               | None => mret (confirmed (data ins) newStock)
               end
           end
     end)
    caught.

(** The loop of the bulk update: it only builds the updates, one per entry of
    [Object.entries(updates)], and sends nothing; [parseInt] may throw. *)
Fixpoint bulk_builders (updates : list (string * value)) : option (list (string * num)) :=
  match updates with
  | [] => Some []
  | (roomType, available) :: rest =>
      n ← parseInt available;
      builders ← bulk_builders rest;
      Some ((roomType, n) :: builders)
  end.

(** [Promise.all(updatePromises)]: the calls, taken in the order in which
    they are started. *)
Fixpoint bulk_calls (builders : list (string * num)) : M (list (reply (list (string * Z)))) :=
  match builders with
  | [] => mret []
  | (roomType, available) :: rest =>
      r ← update_available_select roomType available;
      rs ← bulk_calls rest;
      mret (r :: rs)
  end.

Definition update_failed (message : string) : response :=
  {| status := 500;
     body := Obj [("error", Str "Failed to update room availability");
                  ("details", Str message)] |}.

(** [app.post('/api/rooms/bulk-update', ...)], for a body that is an object. *)
Definition bulk_update (updates : list (string * value)) : M response :=
  catch
    (builders ← convert (bulk_builders updates);
     results ← lift (bulk_calls builders);
     let errors := omap error results in
     if 0 <? Z.of_nat (length errors)
     then mret {| status := 500;
                  body := Obj [("error", Str "Some room updates failed");
                               ("details", Arr (Str <$> errors))] |}
     else mret {| status := 200;
                  body := Obj [("success", Bool true);
                               ("message", Str "All room availability updated");
                               ("updatedRooms",
                                Arr ((λ r, match data r with
                                           | Some (row :: _) => room_value row
                                           | _ => Undefined
                                           end) <$> results))] |})
    update_failed.

(** [app.get('/api/availability', ...)]: the object sent, or the response of
    the [catch] clause. *)
Definition get_availability : M (gmap string Z + response) :=
  r ← select_rooms;
  match error r with
  | Some message =>
      mret (inr {| status := 500;
                   body := Obj [("error", Str "Failed to fetch room availability");
                                ("details", Str message)] |})
  | None => mret (inl (availability_object (default [] (data r))))
  end.

Definition missing_fields : response :=
  {| status := 400;
     body := Obj [("error", Str "Missing required fields: room_type and available")] |}.

Definition updated (row : string * Z) : response :=
  {| status := 200; body := Obj [("success", Bool true); ("room", room_value row)] |}.

(** [app.post('/api/rooms/update-availability', ...)] *)
Definition update_availability (b : gmap string value) : M response :=
  catch
    (let room_type := get b "room_type" in
     let available := get b "available" in
     if negb (truthy room_type) || strict_eq available Undefined then mret missing_fields
     else
       n ← convert (parseInt available);
       rt ← convert (to_string room_type);
       r ← lift (update_available_select rt n);
       match error (single r), data (single r) with
       | Some message, _ => throw message
       | None, Some row => mret (updated row)
       | None, None => throw no_rows
       end)
    update_failed.

End Schema.

(** ** src/unnamed/part_000, first file: the file store *)

Module FileStore.
Import JS.

(** A booking as the handler builds it from the form fields. *)
Record booking : Type := {
  id : string;
  timestamp : string;
  room_type : value;
  quantity : value;
  check_in : value;
  check_out : value;
  guest_name : value;
  contact_number : value;
  valid_id : value;
  total_amount : value;
  payment_channel : value;
  reference_number : value;
  additional_requests : value;
  screenshot_path : string
}.

(** What [persistAvailability] and [persistBookings] hand to [fs.writeFile]. *)
Inductive write : Type :=
  | WriteAvailability (content : gmap string value)
  | WriteBookings (content : list booking).

(** The two caches and the writes issued so far; a write that fails is only
    logged, so its outcome reaches neither the caches nor the response. *)
Record store : Type := {
  availabilityCache : gmap string value;
  bookingsCache : list booking;
  writes : list write
}.

Definition persistAvailability (s : store) : store :=
  {| availabilityCache := availabilityCache s;
     bookingsCache := bookingsCache s;
     writes := writes s ++ [WriteAvailability (availabilityCache s)] |}.

Definition persistBookings (s : store) : store :=
  {| availabilityCache := availabilityCache s;
     bookingsCache := bookingsCache s;
     writes := writes s ++ [WriteBookings (bookingsCache s)] |}.

Record response : Type := { status : Z; body : value }.

(** The handlers of the file store have no [try]: an error thrown in one of
    them goes to the error handler of Express, which answers with status 500
    and a page that is not modelled. *)
Definition uncaught : response := {| status := 500; body := Undefined |}.

Definition booking_value (k : booking) : value :=
  Obj [("id", Str (id k));
       ("timestamp", Str (timestamp k));
       ("room_type", room_type k);
       ("quantity", quantity k);
       ("check_in", check_in k);
       ("check_out", check_out k);
       ("guest_name", guest_name k);
       ("contact_number", contact_number k);
       ("valid_id", valid_id k);
       ("total_amount", total_amount k);
       ("payment_channel", payment_channel k);
       ("reference_number", reference_number k);
       ("additional_requests", additional_requests k);
       ("screenshot_path", Str (screenshot_path k))].

(** The request: the form fields, the name of the uploaded file if there is
    one, and the two readings of the clock. *)
Record request : Type := {
  fields : gmap string value;
  file : option string;
  now : Z;
  iso : string
}.

Definition booking_of (req : request) : booking :=
  let b := fields req in
  {| id := "bk_" +:+ pretty (now req);
     timestamp := iso req;
     room_type := or (or (get b "Room Type") (get b "room_type")) (Str "");
     quantity := or (or (get b "Number of Rooms") (get b "quantity")) (Num (Int 1));
     check_in := or (or (get b "Check In") (get b "check_in")) (Str "");
     check_out := or (or (get b "Check Out") (get b "check_out")) (Str "");
     guest_name := or (or (get b "Guest Name") (get b "guest_name")) (Str "");
     contact_number := or (or (get b "Guest Phone") (get b "contact_number")) (Str "");
     valid_id := or (or (get b "Valid Id") (get b "valid_id")) (Str "");
     total_amount := or (or (get b "Payment Amount") (get b "total_amount")) (Str "");
     payment_channel := or (or (get b "Payment Method") (get b "payment_channel")) (Str "");
     reference_number :=
       or (or (get b "Reference Number") (get b "reference_number")) (Str "");
     additional_requests :=
       or (or (get b "Additional Requestss") (get b "additional_requests")) (Str "");
     screenshot_path := match file req with
                        | Some filename => "uploads/" +:+ filename
                        | None => ""
                        end |}.

(** The rejection for lack of stock; [roomType] is the room type as the
    template prints it. *)
Definition not_enough (currentStock : num) (roomType : string) : response :=
  {| status := 400;
     body := Obj [("error",
                   Str ("Sorry, not enough rooms. Only " +:+ num_to_string currentStock
                        +:+ " left for " +:+ roomType +:+ "."))] |}.

(** [availabilityCache[key] = n] *)
Definition set_available (key : string) (n : num) (s : store) : store :=
  {| availabilityCache := assign (availabilityCache s) key n;
     bookingsCache := bookingsCache s;
     writes := writes s |}.

Definition unshift (k : booking) (s : store) : store :=
  {| availabilityCache := availabilityCache s;
     bookingsCache := k :: bookingsCache s;
     writes := writes s |}.

(** "Save Booking (In Memory)" and the response that follows. *)
Definition save (k : booking) (s : store) : response * store :=
  ({| status := 200; body := Obj [("success", Bool true); ("booking", booking_value k)] |},
   persistBookings (unshift k s)).

(** [booking.room_type], and the name under which it is looked up in
    [availabilityCache], which is the text that the template prints. *)
Definition roomType (req : request) : value := room_type (booking_of req).

Definition key (req : request) : option string := to_string (roomType req).

(** [parseInt(booking.quantity)] *)
Definition requestedQty (req : request) : option num := parseInt (quantity (booking_of req)).

(** [app.post('/api/bookings', ...)] *)
Definition post_bookings (req : request) (s : store) : response * store :=
  let booking := booking_of req in
  match requestedQty req, key req with
  | Some requestedQty, Some key =>
      let stored := lookup (availabilityCache s) key in
      if defined stored
      then
        match parseInt_property stored with
        | Some currentStock =>
            if lt currentStock requestedQty
            then (not_enough currentStock key, s)
            else
              save booking
                (persistAvailability (set_available key (sub currentStock requestedQty) s))
        | None => (uncaught, s)
        end
      else save booking s
  | _, _ => (uncaught, s)
  end.

(** [app.get('/api/availability', ...)] and [app.get('/api/bookings', ...)]:
    the caches as they are. *)
Definition get_availability (s : store) : gmap string value := availabilityCache s.
Definition get_bookings (s : store) : list booking := bookingsCache s.

(** [availabilityCache = req.body] *)
Definition override (b : gmap string value) (s : store) : store :=
  {| availabilityCache := b; bookingsCache := bookingsCache s; writes := writes s |}.

(** ToNumber on a string, where the result is an integer: the empty string
    (after trimming) is 0, a string of decimal digits is its value, rounded.
    [None] stands for the strings left out (signs, fractions, exponents, other
    radixes, text that is not a numeral), not for an error. *)
Definition string_to_number (s : string) : option num :=
  let t := trim s in
  if String.eqb t "" then Some (Int 0)
  else if is_digits t then double <$> digits 10 t None
  else None.

(** ToNumber.  The outer [None] is for a conversion that throws: an array or
    an object is converted to a string first.  The inner [None] is for a
    string that [string_to_number] leaves out. *)
Definition to_number (v : value) : option (option num) :=
  match v with
  | Undefined => Some (Some NaN)
  | Null => Some (Some (Int 0))
  | Bool b => Some (Some (Int (if b then 1 else 0)))
  | Num (Int z) => Some (Some (double z))
  | Num n => Some (Some n)
  | Str s => Some (string_to_number s)
  | Arr _ | Obj _ => string_to_number <$> to_string v
  end.

(** [availabilityCache[roomType] - qty]: an inherited property is a function
    or the prototype, which are no numbers, and a difference with NaN is NaN
    whatever the other number is. *)
Definition minus (stored : property) (qty : num) : option (option num) :=
  match stored with
  | Own v =>
      n ← to_number v;
      Some match qty with
           | NaN => Some NaN
           | _ => (λ x, sub x qty) <$> n
           end
  | Inherited | Missing => Some (Some NaN)
  end.

(** What [app.post('/api/availability', ...)] answers: [{ success: true, data }]
    with the cache as data, or the 500 of Express when the handler throws. *)
Inductive answer : Type :=
  | Sent (data : gmap string value)
  | Uncaught.

(** [app.post('/api/availability', ...)].  [None] only where [minus] leaves
    the stored value out. *)
Definition post_availability (b : gmap string value) (s : store) : option (answer * store) :=
  let finish (s' : store) := Some (Sent (availabilityCache s'), persistAvailability s') in
  if truthy (get b "roomType") && negb (strict_eq (get b "quantity") Undefined)
  then
    match parseInt (get b "quantity"), to_string (get b "roomType") with
    | Some qty, Some roomType =>
        let stored := lookup (availabilityCache s) roomType in
        if defined stored
        then
          match minus stored qty with
          | Some (Some d) => finish (set_available roomType (max0 d) s)
          | Some None => None
          | None => Some (Uncaught, s)
          end
        else finish s
    | _, _ => Some (Uncaught, s)
    end
  else
    if negb (strict_eq (get b "Family Room") Undefined)
    then finish (override b s)
    else finish s.

(** The count cached for a room type, when it is an integer, and the rooms
    that the bookings in a list take of a room type. *)
Definition stock (s : store) (key : string) : option Z :=
  match availabilityCache s !! key with
  | Some (Num (Int n)) => Some n
  | _ => None
  end.

Definition rooms_booked (key : string) (ks : list booking) : Z :=
  foldr (λ k total,
           match to_string (room_type k), parseInt (quantity k) with
           | Some name, Some (Int q) => if String.eqb name key then q + total else total
           | _, _ => total
           end) 0 ks.

(** A cache in which every count is a non-negative integer below 2^53. *)
Definition counted (s : store) : Prop :=
  ∀ key v, availabilityCache s !! key = Some v → ∃ n, v = Num (Int n) ∧ 0 ≤ n < 2 ^ 53.

(** Requests to [POST /api/bookings] handled one after the other: the
    handler has no [await], so it runs to its end before the next request. *)
Fixpoint post_all (reqs : list request) (s : store) : list response * store :=
  match reqs with
  | [] => ([], s)
  | req :: rest =>
      let '(r, s1) := post_bookings req s in
      let '(rs, s2) := post_all rest s1 in
      (r :: rs, s2)
  end.

End FileStore.

(** ** Sample states and requests *)

Module Sample.
Import JS Store.

Definition ledger : gmap string Z := {[ "Suite" := 3 ]}.

(** Plans: no call fails; the third call (the insertion) fails; the third and
    the fourth (the rollback) fail. *)
Definition never : nat → option string := λ _, None.

Definition insert_fails : nat → option string :=
  λ i, match i with
       | 2%nat => Some "insert failed"
       | _ => None
       end.

Definition both_fail : nat → option string :=
  λ i, match i with
       | 2%nat => Some "insert failed"
       | 3%nat => Some "rollback failed"
       | _ => None
       end.

Definition world (plan : nat → option string) : db :=
  {| rooms := ledger; bookings := []; calls := 0; outcome := plan |}.

(** A request for [n] rooms of a room type. *)
Definition request (room n : value) : gmap string value :=
  {[ "room_type" := room; "quantity" := n; "guest_name" := Str "Ada"; "valid_id" := Str "Yes" ]}.

(** A value that cannot be converted to a string or to a number: the JSON
    object [{"toString": 1}]. *)
Definition unconvertible : value := Obj [("toString", Num (Int 1))].


(** A request that says "No" under [valid_id] and "Yes" under the older
    name of the same field. *)
Definition two_answers : gmap string value :=
  <["Valid Id" := Str "Yes"]> (<["valid_id" := Str "No"]> (request (Str "Suite") (Str "1"))).

(** A bulk update with one count that is not numeric. *)
Definition sheet : list (string * value) :=
  [("Suite", Num (Int 5)); ("BadRoom", Str "abc")].

(** A bulk update whose second count cannot be converted. *)
Definition odd_sheet : list (string * value) :=
  [("Suite", Num (Int 5)); ("Twin Room", unconvertible); ("Suite", Num (Int 7))].

(** The file store with three suites, and a form posted to it. *)
Definition cache : FileStore.store :=
  {| FileStore.availabilityCache := {[ "Suite Room" := Num (Int 3) ]};
     FileStore.bookingsCache := [];
     FileStore.writes := [] |}.

Definition form (room n : value) : FileStore.request :=
  {| FileStore.fields := {[ "room_type" := room; "quantity" := n ]};
     FileStore.file := None;
     FileStore.now := 1700000000000;
     FileStore.iso := "2023-11-14T22:13:20.000Z" |}.

(** A plan in which only the call numbered [k] fails. *)
Definition fails_at (k : nat) (message : string) : nat → option string :=
  λ i, if decide (i = k) then Some message else None.

(** A bulk update of two room types, the second of which is not in the
    ledger, and a request to set one count. *)
Definition two_counts : list (string * value) :=
  [("Suite", Str "5"); ("Twin Room", Num (Int 9))].

Definition set_suite : gmap string value :=
  {[ "room_type" := Str "Suite"; "available" := Str "10" ]}.

(** A request to take five suites out of the file store's count. *)
Definition take_five : gmap string value :=
  {[ "roomType" := Str "Suite Room"; "quantity" := Str "5" ]}.

End Sample.

(** * Properties *)

Import JS Store.

Arguments parseInt : simpl never.
Arguments to_string : simpl never.
Arguments trim : simpl never.

(** ** The coercions at sample values *)

Example parseInt_leading_digits : parseInt (Str " -12px") = Some (Int (-12)).
Proof. reflexivity. Qed.

Example parseInt_no_digit : parseInt (Str "abc") = Some NaN.
Proof. reflexivity. Qed.

Example parseInt_hexadecimal : parseInt (Str "0x1f") = Some (Int 31).
Proof. reflexivity. Qed.

Example parseInt_of_a_number : parseInt (Num (Int 42)) = Some (Int 42).
Proof. reflexivity. Qed.

Example parseInt_undefined : parseInt Undefined = Some NaN.
Proof. reflexivity. Qed.

Example parseInt_rounds : parseInt (Str "9007199254740993") = Some (Int 9007199254740992).
Proof. reflexivity. Qed.

Example parseInt_of_a_large_number : parseInt (Num (Int (10 ^ 21))) = Some (Int 1).
Proof. reflexivity. Qed.

Example parseInt_throws : parseInt Sample.unconvertible = None.
Proof. reflexivity. Qed.

Example trim_both_ends : trim "  Suite Room " = "Suite Room".
Proof. reflexivity. Qed.

Example trim_no_break_space :
  trim ("Suite" +:+ String (ascii_of_N 194) (String (ascii_of_N 160) "")) = "Suite".
Proof. reflexivity. Qed.

Example to_string_array : to_string (Arr [Num (Int 5); Null; Str "a"]) = Some "5,,a".
Proof. reflexivity. Qed.

Example to_string_large : to_string (Num (Int (2 ^ 69))) = Some "590295810358705700000".
Proof. reflexivity. Qed.

Example lookup_inherited : lookup {[ "Suite Room" := Num (Int 3) ]} "toString" = Inherited.
Proof. reflexivity. Qed.

(** ** The persistence port, one call at a time *)

Section Port.

Lemma bind_run {A B} (m : M A) (f : A → M B) (w : db) :
  (m ≫= f) w = f (m w).1 (m w).2.
Proof. unfold mbind, M_bind. by destruct (m w). Qed.

Lemma select_available_run rt w :
  select_available rt w =
  (match outcome w (calls w) with
   | Some e => {| data := None; error := Some e |}
   | None =>
       match rooms w !! rt with
       | Some n => {| data := Some n; error := None |}
       | None => {| data := None; error := Some no_rows |}
       end
   end, tick w).
Proof.
  unfold select_available, next_outcome, read_room. rewrite bind_run. cbn.
  destruct (outcome w (calls w)); [done|]. rewrite bind_run. cbn.
  by destruct (rooms w !! rt).
Qed.

Lemma update_available_select_run rt v w :
  update_available_select rt v w =
  match outcome w (calls w) with
  | Some e => ({| data := None; error := Some e |}, tick w)
  | None =>
      match rooms w !! rt, v with
      | None, _ => ({| data := Some []; error := None |}, tick w)
      | Some _, Int n => ({| data := Some [(rt, n)]; error := None |}, with_room rt n (tick w))
      | Some _, _ => ({| data := None; error := Some null_available |}, tick w)
      end
  end.
Proof.
  unfold update_available_select, next_outcome, read_room, put_room.
  rewrite bind_run. cbn.
  destruct (outcome w (calls w)); [done|]. rewrite bind_run. cbn.
  destruct (rooms w !! rt); [|done]. by destruct v.
Qed.

Lemma update_available_run rt v w :
  update_available rt v w =
  match outcome w (calls w) with
  | Some e => (Some e, tick w)
  | None =>
      match rooms w !! rt, v with
      | None, _ => (None, tick w)
      | Some _, Int n => (None, with_room rt n (tick w))
      | Some _, _ => (Some null_available, tick w)
      end
  end.
Proof.
  unfold update_available. rewrite bind_run, update_available_select_run.
  destruct (outcome w (calls w)); [done|].
  destruct (rooms w !! rt); [|done]. by destruct v.
Qed.

Lemma insert_booking_run r w :
  insert_booking r w =
  match outcome w (calls w) with
  | Some e => ({| data := None; error := Some e |}, tick w)
  | None => ({| data := Some r; error := None |}, with_booking r (tick w))
  end.
Proof.
  unfold insert_booking, next_outcome, add_booking. rewrite bind_run. cbn.
  by destruct (outcome w (calls w)).
Qed.

(** The steps of a [try] block. *)
Lemma bind_lift {A B} (m : M A) (f : A → T B) (w : db) :
  (lift m ≫= f) w = f (m w).1 (m w).2.
Proof. reflexivity. Qed.

Lemma bind_convert {A B} (o : option A) (f : A → T B) (w : db) :
  (convert o ≫= f) w = match o with
                       | Some a => f a w
                       | None => (Thrown type_error, w)
                       end.
Proof. by destruct o. Qed.

Lemma bind_throw {A B} (e : string) (f : A → T B) (w : db) :
  (throw e ≫= f) w = (Thrown e, w).
Proof. reflexivity. Qed.

Lemma bind_block {A B} (m : T A) (f : A → T B) (w : db) :
  (m ≫= f) w = match m w with
               | (Normal a, w') => f a w'
               | (Thrown e, w') => (Thrown e, w')
               end.
Proof. reflexivity. Qed.

Lemma catch_run {A} (body : T A) (handler : string → A) (w : db) :
  catch body handler w = match body w with
                         | (Normal a, w') => (a, w')
                         | (Thrown e, w') => (handler e, w')
                         end.
Proof. reflexivity. Qed.

(** A write of the count that is already stored changes nothing, and a
    second write to a room type overrides the first. *)
Lemma restore_rooms (m : gmap string Z) rt n k :
  m !! rt = Some n → <[rt := n]> (<[rt := k]> m) = m.
Proof. intros H. rewrite insert_insert_eq. by apply insert_id. Qed.

(** No write lowers a count below zero unless it is given a negative one. *)
Lemma nonneg_insert (m : gmap string Z) rt n :
  nonneg m → 0 ≤ n → nonneg (<[rt := n]> m).
Proof.
  intros Hm Hn rt' n'. rewrite lookup_insert. case_decide.
  - intros [= <-]. done.
  - apply Hm.
Qed.


End Port.

(** ** The paths through the three Supabase booking handlers *)

(** One step of a handler at a time. *)
Ltac walk :=
  repeat first
    [ rewrite catch_run
    | rewrite bind_convert
    | rewrite bind_lift
    | rewrite bind_throw
    | rewrite select_available_run
    | rewrite update_available_run
    | rewrite update_available_select_run
    | rewrite insert_booking_run
    | rewrite lookup_insert_eq
    | progress cbn [fst snd error data rooms bookings calls outcome tick with_room
                    with_booking mret T_ret M_ret Nat.add] ].

Section Paths.

(** *** src/server.js: the whole handler, by the outcome of every conversion
    and of every call *)

Lemma server_run b w :
  Server.post_bookings b w =
  match to_string (get b "guest_name"), Server.room_type b with
  | Some _, Some rt =>
      match planned 0 w, rooms w !! rt with
      | None, Some N =>
          match Server.qty b with
          | None => (Server.caught type_error, tick w)
          | Some qty =>
              if lt (Int N) qty then (Server.sold_out, tick w)
              else
                match planned 1 w, sub (Int N) qty with
                | Some e, _ => (Server.caught e, tick (tick w))
                | None, Int n =>
                    match Server.record b with
                    | None => (Server.caught type_error, with_room rt n (tick (tick w)))
                    | Some r =>
                        match planned 2 w, planned 3 w with
                        | None, _ =>
                            (Server.confirmed,
                             with_booking r (tick (with_room rt n (tick (tick w)))))
                        | Some e, None =>
                            (Server.caught e,
                             with_room rt N (tick (tick (with_room rt n (tick (tick w))))))
                        | Some e, Some _ =>
                            (Server.caught e, tick (tick (with_room rt n (tick (tick w)))))
                        end
                    end
                | None, _ => (Server.caught null_available, tick (tick w))
                end
          end
      | _, _ => (Server.not_found, tick w)
      end
  | _, _ => (Server.caught type_error, w)
  end.
Proof.
  unfold Server.post_bookings, Server.update_stock, Server.rollback, planned. walk.
  destruct (to_string (get b "guest_name")); [|done]. walk.
  destruct (Server.room_type b) as [rt|]; [|done]. walk.
  destruct (outcome w (calls w)); [done|].
  destruct (rooms w !! rt) as [N|] eqn:HN; [|done]. walk.
  destruct (Server.qty b) as [qty|]; [|done].
  destruct (lt (Int N) qty); [done|]. walk. rewrite HN.
  destruct (outcome w (S (calls w))); [done|].
  destruct (sub (Int N) qty) as [n| |]; try done. walk.
  destruct (Server.record b) as [r|]; [|done]. walk.
  destruct (outcome w (S (S (calls w)))); [|done]. walk.
  by destruct (outcome w (S (S (S (calls w))))).
Qed.

(** *** The production-ready version *)

Lemma production_run b w :
  Production.post_bookings b w =
  match Production.room_type b with
  | Some rt =>
      match planned 0 w, rooms w !! rt with
      | None, Some N =>
          match Production.quantity b with
          | None => (Production.caught type_error, tick w)
          | Some quantity =>
              if lt (Int N) quantity then (Production.sold_out, tick w)
              else
                match planned 1 w, sub (Int N) quantity with
                | Some e, _ => (Production.caught e, tick (tick w))
                | None, Int n =>
                    match Production.bookingRecord b with
                    | None => (Production.caught type_error, with_room rt n (tick (tick w)))
                    | Some r =>
                        match planned 2 w, planned 3 w with
                        | None, _ =>
                            (Production.confirmed,
                             with_booking r (tick (with_room rt n (tick (tick w)))))
                        | Some e, None =>
                            (Production.caught e,
                             with_room rt N (tick (tick (with_room rt n (tick (tick w))))))
                        | Some e, Some _ =>
                            (Production.caught e,
                             tick (tick (with_room rt n (tick (tick w)))))
                        end
                    end
                | None, _ => (Production.caught null_available, tick (tick w))
                end
          end
      | _, _ => (Production.not_found, tick w)
      end
  | None => (Production.caught type_error, w)
  end.
Proof.
  unfold Production.post_bookings, Production.decrement_stock, Production.rollback, planned.
  walk.
  destruct (Production.room_type b) as [rt|]; [|done]. walk.
  destruct (outcome w (calls w)); [done|].
  destruct (rooms w !! rt) as [N|] eqn:HN; [|done]. walk.
  destruct (Production.quantity b) as [quantity|]; [|done].
  destruct (lt (Int N) quantity); [done|]. walk. rewrite HN.
  destruct (outcome w (S (calls w))); [done|].
  destruct (sub (Int N) quantity) as [n| |]; try done. walk.
  destruct (Production.bookingRecord b) as [r|]; [|done]. walk.
  destruct (outcome w (S (S (calls w)))); [|done]. walk.
  by destruct (outcome w (S (S (S (calls w))))).
Qed.

(** *** The updated-schema version *)

Lemma schema_run b w :
  Schema.post_bookings b w =
  match Schema.booking_of b, Schema.room_type b with
  | Some k, Some rt =>
      match planned 0 w, rooms w !! rt with
      | Some e, _ => (Schema.caught e, tick w)
      | None, None => (Schema.caught no_rows, tick w)
      | None, Some N =>
          if lt (Int N) (number_of_rooms k) then (Schema.not_enough N rt, tick w)
          else
            match planned 1 w, sub (Int N) (number_of_rooms k) with
            | Some e, _ => (Schema.caught e, tick (tick w))
            | None, Int n =>
                match planned 2 w, planned 3 w with
                | None, _ =>
                    (Schema.confirmed (Some k) (Int n),
                     with_booking k (tick (with_room rt n (tick (tick w)))))
                | Some e, None =>
                    (Schema.caught e,
                     with_room rt N (tick (tick (with_room rt n (tick (tick w))))))
                | Some e, Some _ =>
                    (Schema.caught e, tick (tick (with_room rt n (tick (tick w)))))
                end
            | None, _ => (Schema.caught null_available, tick (tick w))
            end
      end
  | _, _ => (Schema.caught type_error, w)
  end.
Proof.
  unfold Schema.post_bookings, Schema.room_type, Schema.decrement_availability,
    Schema.rollback, planned. walk.
  destruct (Schema.booking_of b) as [k|]; [|done]. walk.
  change (Some k ≫= _) with (to_string (room_category k)).
  destruct (to_string (room_category k)) as [rt|]; [|done]. walk.
  destruct (outcome w (calls w)); [done|].
  destruct (rooms w !! rt) as [N|] eqn:HN; [|done]. walk.
  destruct (lt (Int N) (number_of_rooms k)); [done|]. walk. rewrite HN.
  destruct (outcome w (S (calls w))); [done|].
  destruct (sub (Int N) (number_of_rooms k)) as [n| |] eqn:Hsub; try done. walk.
  destruct (outcome w (S (S (calls w)))); [|done]. walk.
  by destruct (outcome w (S (S (S (calls w))))).
Qed.

(** A count that covers the quantity, and what is left of it. *)
Lemma covered N qty :
  lt (Int N) qty = false →
  match sub (Int N) qty with
  | Int n => ∃ q, qty = Int q ∧ q ≤ N ∧ n = N - q
  | NaN => qty = NaN
  | Inf _ => qty = Inf true
  end.
Proof.
  destruct qty as [q| |[]]; cbn; try done.
  intros H. exists q. repeat split. lia.
Qed.

Lemma covers N q : q ≤ N → lt (Int N) (Int q) = false.
Proof. cbn. lia. Qed.

Lemma exceeds N q : N < q → lt (Int N) (Int q) = true.
Proof. cbn. lia. Qed.

End Paths.

(** ** The booking transaction *)

Section Records.

(** What the records are made of, once their conversions have gone through. *)
Lemma server_record b r :
  Server.record b = Some r →
  coming_with_id r = strict_eq (get b "valid_id") (Str "Yes")
  ∧ Server.qty b = Some (number_of_rooms r)
  ∧ is_Some (parseInt (get b "total_amount")).
Proof.
  unfold Server.record. destruct (Server.qty b) as [qty|]; [|done]. cbn.
  destruct (parseInt (get b "total_amount")) as [amount|]; [|done]. cbn.
  intros [= <-]. by eauto.
Qed.

Lemma server_record_some b qty :
  Server.qty b = Some qty → is_Some (parseInt (get b "total_amount")) →
  is_Some (Server.record b).
Proof. unfold Server.record. intros -> [amount ->]. by eexists. Qed.

Lemma production_record b r :
  Production.bookingRecord b = Some r →
  Production.quantity b = Some (number_of_rooms r).
Proof.
  unfold Production.bookingRecord. destruct (Production.quantity b) as [qty|]; [|done]. cbn.
  destruct (parseInt _) as [amount|]; [|done]. cbn. by intros [= <-].
Qed.

Lemma production_record_some b qty :
  Production.quantity b = Some qty →
  is_Some (parseInt (or (get b "total_amount") (get b "payment_amount"))) →
  is_Some (Production.bookingRecord b).
Proof. unfold Production.bookingRecord. intros -> [amount ->]. by eexists. Qed.

Lemma schema_booking b k :
  Schema.booking_of b = Some k →
  Schema.requestedQty b = Some (number_of_rooms k)
  ∧ Schema.room_type b = to_string (room_category k)
  ∧ coming_with_id k =
      strict_eq (get b "coming_with_id") (Bool true)
      || strict_eq (get b "coming_with_id") (Str "true")
      || strict_eq (get b "Valid Id") (Str "Yes")
      || strict_eq (get b "valid_id") (Str "Yes").
Proof.
  unfold Schema.requestedQty, Schema.room_type. intros H. rewrite H. cbn.
  split; [done|]. split; [done|].
  unfold Schema.booking_of in H.
  destruct (parseInt _) as [x|], (parseInt _) as [y|]; cbn in H; try done.
  by injection H as <-.
Qed.

(** In the updated-schema version a room type and a quantity are read from
    the booking, which has been built by then. *)
Lemma schema_read b rt qty :
  Schema.room_type b = Some rt → Schema.requestedQty b = Some qty →
  ∃ k, Schema.booking_of b = Some k ∧ number_of_rooms k = qty.
Proof.
  unfold Schema.room_type, Schema.requestedQty.
  destruct (Schema.booking_of b) as [k|]; [|done]. cbn. intros _ [= <-]. by exists k.
Qed.

End Records.

Section Transaction.


(** C2 (as amended): when the insertion of the booking record is attempted
    and fails after the stock has been written down, and the rollback write
    goes through, the room type is back at the count read before the
    reservation, no booking is stored and the caller receives the 500 response
    that carries the message of the insertion failure. *)
Theorem failed_insert_restores_stock
    (w : db) (b : gmap string value) (rt : string) (N q : Z) (e : string) :
  planned 0 w = None → planned 1 w = None → planned 2 w = Some e → planned 3 w = None →
  q ≤ N → rooms w !! rt = Some N →
  (is_Some (to_string (get b "guest_name")) → Server.room_type b = Some rt →
   Server.qty b = Some (Int q) → is_Some (Server.record b) →
   (Server.post_bookings b w).1 = Server.caught e
   ∧ rooms (Server.post_bookings b w).2 !! rt = Some N
   ∧ bookings (Server.post_bookings b w).2 = bookings w)
  ∧ (Schema.room_type b = Some rt → Schema.requestedQty b = Some (Int q) →
     (Schema.post_bookings b w).1 = Schema.caught e
     ∧ rooms (Schema.post_bookings b w).2 !! rt = Some N
     ∧ bookings (Schema.post_bookings b w).2 = bookings w).
Proof.
  intros H0 H1 H2 H3 Hle HN. split.
  - intros [g Hg] Hrt Hqty [r Hr].
    rewrite server_run, Hg, Hrt, H0, HN, Hqty, covers by done. cbn [sub].
    rewrite H1, Hr, H2, H3. cbn. by rewrite lookup_insert_eq.
  - intros Hrt Hqty. destruct (schema_read b rt (Int q) Hrt Hqty) as (k & Hk & Hrooms).
    rewrite schema_run, Hk, Hrt, H0, HN, Hrooms, covers by done. cbn [sub].
    rewrite H1, H2, H3. cbn. by rewrite lookup_insert_eq.
Qed.


End Transaction.

Section Rejections.

(** *** The file store *)

Lemma not_undefined v : v ≠ Undefined → strict_eq v Undefined = false.
Proof. by destruct v as [| |?|[?| |?]|?|?|?]. Qed.

Lemma lookup_own (m : gmap string value) k v : m !! k = Some v → lookup m k = Own v.
Proof. unfold lookup. by intros ->. Qed.

Lemma lookup_missing (m : gmap string value) k : lookup m k = Missing → m !! k = None.
Proof. unfold lookup. destruct (m !! k); [done|]. by destruct (inherited k). Qed.

Lemma assign_own (m : gmap string value) k v n :
  m !! k = Some v → assign m k n = <[k := Num n]> m.
Proof.
  intros H. unfold assign. rewrite H, bool_decide_eq_false_2 by done.
  by rewrite andb_false_r.
Qed.

Lemma filestore_unknown req s key :
  FileStore.key req = Some key → is_Some (FileStore.requestedQty req) →
  lookup (FileStore.availabilityCache s) key = Missing →
  FileStore.post_bookings req s = FileStore.save (FileStore.booking_of req) s.
Proof.
  intros Hkey [q Hq] H. unfold FileStore.post_bookings. by rewrite Hq, Hkey, H.
Qed.

Lemma filestore_known req s key v :
  FileStore.key req = Some key →
  FileStore.availabilityCache s !! key = Some v → v ≠ Undefined →
  FileStore.post_bookings req s =
  match FileStore.requestedQty req, parseInt v with
  | Some requestedQty, Some currentStock =>
      if lt currentStock requestedQty
      then (FileStore.not_enough currentStock key, s)
      else FileStore.save (FileStore.booking_of req)
             (FileStore.persistAvailability
                (FileStore.set_available key (sub currentStock requestedQty) s))
  | _, _ => (FileStore.uncaught, s)
  end.
Proof.
  intros Hkey Hv Hne. unfold FileStore.post_bookings.
  rewrite Hkey, (lookup_own _ _ _ Hv).
  destruct (FileStore.requestedQty req); [|done].
  by destruct v.
Qed.

Lemma strict_eq_str v s : strict_eq v (Str s) = true ↔ v = Str s.
Proof.
  destruct v as [| |?|[?| |?]|t| |]; cbn; try (split; [discriminate|congruence]).
  rewrite String.eqb_eq. split; congruence.
Qed.

Lemma strict_eq_true v : strict_eq v (Bool true) = true ↔ v = Bool true.
Proof.
  destruct v as [| |[]|[?| |?]|t| |]; cbn; split; try discriminate; try congruence.
Qed.

(** *** Strings *)

Lemma append_cons a s t : String a s +:+ t = String a (s +:+ t).
Proof. reflexivity. Qed.

Lemma append_empty t : "" +:+ t = t.
Proof. reflexivity. Qed.

Lemma prefix_app s t : String.prefix s (s +:+ t) = true.
Proof.
  induction s as [|a s IH]; [by destruct t|].
  rewrite append_cons. cbn. by destruct (ascii_dec a a).
Qed.

Lemma includes_prefix h n : String.prefix n h = true → includes h n = true.
Proof. intros H. destruct h; unfold includes; fold includes; by rewrite H. Qed.

Lemma includes_here s t : includes (s +:+ t) s = true.
Proof. apply includes_prefix, prefix_app. Qed.

Lemma includes_later r s t : includes s t = true → includes (r +:+ s) t = true.
Proof.
  intros H. induction r as [|a r IH]; [done|].
  rewrite append_cons. cbn. rewrite IH. apply orb_true_r.
Qed.

Lemma includes_self e : includes e e = true.
Proof.
  apply includes_prefix. induction e as [|a e IH]; [done|].
  cbn. by destruct (ascii_dec a a).
Qed.

End Rejections.

(** Every end of a handler: the equation of the handler, then one case for
    each conversion and each call. *)
Ltac ends := repeat case_match; simplify_eq; cbn in *.

Section Claims.

(** C3 (as amended): a booking request whose room type is not in the ledger
    and can be converted to text is rejected by the three Supabase versions,
    which store nothing: by src/server.js with 404 "Room type not found", by
    the production-ready version with 400 "Room category not found", and by
    the updated-schema version through its catch clause, with the message of
    the lookup (that of the failed call, or that no row was returned).  The
    file store accepts the request as a booking and leaves the availability
    map as it is, when the room type is no property of the map, inherited ones
    included, and the quantity can be converted. *)
Theorem unknown_room_type_outcomes
    (w : db) (b : gmap string value) (rt : string)
    (req : FileStore.request) (s : FileStore.store) (key : string) :
  (is_Some (to_string (get b "guest_name")) → Server.room_type b = Some rt →
   rooms w !! rt = None →
   Server.post_bookings b w = (Server.not_found, tick w))
  ∧ (Production.room_type b = Some rt → rooms w !! rt = None →
     Production.post_bookings b w = (Production.not_found, tick w))
  ∧ (Schema.room_type b = Some rt → rooms w !! rt = None →
     Schema.post_bookings b w = (Schema.caught (default no_rows (planned 0 w)), tick w))
  ∧ (FileStore.key req = Some key → is_Some (FileStore.requestedQty req) →
     lookup (FileStore.availabilityCache s) key = Missing →
     (FileStore.post_bookings req s).1 =
       {| FileStore.status := 200;
          FileStore.body := Obj [("success", Bool true);
                                 ("booking", FileStore.booking_value (FileStore.booking_of req))] |}
     ∧ FileStore.bookingsCache (FileStore.post_bookings req s).2 =
         FileStore.booking_of req :: FileStore.bookingsCache s
     ∧ FileStore.availabilityCache (FileStore.post_bookings req s).2 =
         FileStore.availabilityCache s).
Proof.
  split; [|split; [|split]].
  - intros [g Hg] Hrt HN. rewrite server_run, Hg, Hrt, HN. by destruct (planned 0 w).
  - intros Hrt HN. rewrite production_run, Hrt, HN. by destruct (planned 0 w).
  - intros Hrt HN. rewrite schema_run, Hrt, HN.
    destruct (Schema.booking_of b) as [k|] eqn:Hk.
    + by destruct (planned 0 w).
    + unfold Schema.room_type in Hrt. by rewrite Hk in Hrt.
  - intros Hkey Hq Hmiss. by rewrite (filestore_unknown req s key).
Qed.


(** C9 (as amended): whenever the updated-schema version or the file store
    rejects a request for lack of stock (their only 400 response), the error
    message includes the count that the handler read for the room type. *)
Theorem rejection_message_names_stock
    (w : db) (b : gmap string value) (req : FileStore.request) (s : FileStore.store) :
  (Store.status (Schema.post_bookings b w).1 = 400 →
   ∃ rt N msg,
     Schema.room_type b = Some rt
     ∧ rooms w !! rt = Some N
     ∧ Store.body (Schema.post_bookings b w).1 = Obj [("error", Str msg)]
     ∧ includes msg (num_to_string (Int N)) = true)
  ∧ (FileStore.status (FileStore.post_bookings req s).1 = 400 →
     ∃ key v currentStock msg,
       FileStore.key req = Some key
       ∧ FileStore.availabilityCache s !! key = Some v
       ∧ parseInt v = Some currentStock
       ∧ FileStore.body (FileStore.post_bookings req s).1 = Obj [("error", Str msg)]
       ∧ includes msg (num_to_string currentStock) = true).
Proof.
  split.
  - rewrite schema_run. intros H. ends; try done.
    eexists _, _, _. split; [done|]. split; [done|]. split; [reflexivity|].
    apply includes_later, includes_here.
  - unfold FileStore.post_bookings.
    destruct (FileStore.requestedQty req) as [q|]; [|done].
    destruct (FileStore.key req) as [key|]; [|done].
    unfold lookup.
    destruct (FileStore.availabilityCache s !! key) as [v|] eqn:Hv.
    + destruct (defined (Own v)); [|done]. cbn [parseInt_property].
      destruct (parseInt v) as [currentStock|] eqn:Hstock; [|done].
      destruct (lt currentStock q); [|done]. intros _.
      eexists key, v, currentStock, _.
      split; [done|]. split; [done|]. split; [done|]. split; [reflexivity|].
      apply includes_later, includes_here.
    + destruct (inherited key); [|done]. cbn. by destruct q as [?| |[]].
Qed.

(** C10 (as amended): for every accepted booking request the record that is
    inserted has [coming_with_id] true exactly when [valid_id] is the string
    "Yes" in src/server.js; in the updated-schema version exactly when
    [valid_id] or its older name [Valid Id] is the string "Yes", or
    [coming_with_id] is the boolean true or the string "true".  Every other
    value yields false. *)
Theorem coming_with_id_flag (w : db) (b : gmap string value) :
  ((Server.post_bookings b w).1 = Server.confirmed →
   ∃ r, Server.record b = Some r
        ∧ last (bookings (Server.post_bookings b w).2) = Some r
        ∧ (coming_with_id r = true ↔ get b "valid_id" = Str "Yes"))
  ∧ (Store.status (Schema.post_bookings b w).1 = 200 →
     ∃ k, Schema.booking_of b = Some k
          ∧ last (bookings (Schema.post_bookings b w).2) = Some k
          ∧ (coming_with_id k = true ↔
             get b "valid_id" = Str "Yes" ∨ get b "Valid Id" = Str "Yes"
             ∨ get b "coming_with_id" = Bool true ∨ get b "coming_with_id" = Str "true")).
Proof.
  split.
  - rewrite server_run. intros H.
    destruct (Server.record b) as [r|] eqn:Hr.
    + exists r. split; [done|]. split.
      * ends; try done. apply last_snoc.
      * destruct (server_record b r Hr) as (-> & _). apply strict_eq_str.
    + ends; done.
  - rewrite schema_run. intros H.
    destruct (Schema.booking_of b) as [k|] eqn:Hk; [|by ends].
    exists k. split; [done|]. split.
    + ends; try done. apply last_snoc.
    + destruct (schema_booking b k Hk) as (_ & _ & ->).
      rewrite !orb_true_iff, !strict_eq_str, strict_eq_true. tauto.
Qed.

End Claims.

(** ** The ledger stays non-negative *)

Section Covered.

Lemma covered_nonneg (m : gmap string Z) rt N qty n :
  nonneg m → m !! rt = Some N → lt (Int N) qty = false → sub (Int N) qty = Int n → 0 ≤ n.
Proof.
  intros Hm HN Hlt Hsub. pose proof (covered N qty Hlt) as Hc. rewrite Hsub in Hc.
  destruct Hc as (q & _ & Hle & ->). specialize (Hm rt N HN). lia.
Qed.

End Covered.

(** After a booking request the counts are those before it, or the room
    type of the request has had the quantity taken out of a count that covers
    it. *)
Ltac rooms_after Hw :=
  ends; try done;
  repeat (apply nonneg_insert; [|by eauto using covered_nonneg]);
  try done.

Section Ledger.

Lemma server_booking_nonneg w b :
  nonneg (rooms w) → nonneg (rooms (Server.post_bookings b w).2).
Proof. intros Hw. rewrite server_run. rooms_after Hw. Qed.

Lemma production_booking_nonneg w b :
  nonneg (rooms w) → nonneg (rooms (Production.post_bookings b w).2).
Proof. intros Hw. rewrite production_run. rooms_after Hw. Qed.

Lemma schema_booking_nonneg w b :
  nonneg (rooms w) → nonneg (rooms (Schema.post_bookings b w).2).
Proof. intros Hw. rewrite schema_run. rooms_after Hw. Qed.

End Ledger.

(** ** The bulk update of src/server.js *)

Section Bulk.

(** What [parseInt(count) || 0] stores: the parsed count, zero when the
    count does not parse. *)
Lemma available_of_parsed count :
  Server.available_of count =
  (λ n, match n with
        | Int n => Int n
        | NaN => Int 0
        | Inf negative => Inf negative
        end) <$> parseInt count.
Proof.
  unfold Server.available_of, num_or.
  destruct (parseInt count) as [[z| |?]|]; cbn; try done.
  destruct (Z.eqb_spec z 0); cbn; congruence.
Qed.

Lemma server_bulk_step room count rest results w :
  Server.bulk_loop ((room, count) :: rest) results w =
  match Server.available_of count with
  | None => (Thrown type_error, w)
  | Some available =>
      match outcome w (calls w) with
      | Some message =>
          Server.bulk_loop rest (results.1, results.2 ++ [room +:+ ": " +:+ message]) (tick w)
      | None =>
          match rooms w !! trim room, available with
          | Some _, Int n =>
              Server.bulk_loop rest (results.1 ++ [room], results.2)
                (with_room (trim room) n (tick w))
          | Some _, _ =>
              Server.bulk_loop rest (results.1, results.2 ++ [room +:+ ": " +:+ null_available])
                (tick w)
          | None, _ => Server.bulk_loop rest (results.1 ++ [room], results.2) (tick w)
          end
      end
  end.
Proof.
  cbn [Server.bulk_loop]. rewrite bind_convert.
  destruct (Server.available_of count) as [available|]; [|done].
  rewrite bind_lift, update_available_run.
  destruct (outcome w (calls w)); [done|].
  destruct (rooms w !! trim room); [|done].
  by destruct available.
Qed.

End Bulk.

(** Induction along the loop: the empty request, then the ways an entry can
    go: its count cannot be converted, its call fails, its room type is in the
    table and the count is an integer or not, or its room type is not in the
    table. *)
Ltac along_server_loop updates results w :=
  revert results w;
  induction updates as [|[k c] rest IH]; intros results w;
  [ | rewrite server_bulk_step, available_of_parsed;
      destruct (parseInt c) as [parsed|] eqn:Hparse; cbn [fmap option_fmap option_map];
      [ destruct (outcome w (calls w)) as [e|] eqn:Hcall;
        [ | destruct (rooms w !! trim k) as [old|] eqn:Hroom;
            [ destruct parsed as [n| |negative] | ] ] | ] ].

Section BulkLedger.

Lemma server_bulk_loop_nonneg updates results w :
  nonneg (rooms w) →
  (∀ room count n, (room, count) ∈ updates → parseInt count = Some (Int n) → 0 ≤ n) →
  nonneg (rooms (Server.bulk_loop updates results w).2).
Proof.
  along_server_loop updates results w; intros Hw Hc; try done;
    (apply IH; [|intros room' count' n' Hin; apply (Hc room'); by apply list_elem_of_further]);
    try done.
  - apply nonneg_insert; [done|]. apply (Hc k c); [apply list_elem_of_here|done].
  - by apply nonneg_insert.
Qed.

Lemma server_bulk_update_state updates w :
  (Server.bulk_update updates w).2 = (Server.bulk_loop updates ([], []) w).2.
Proof.
  unfold Server.bulk_update. rewrite catch_run, bind_block.
  destruct (Server.bulk_loop updates ([], []) w) as [[results|e] w']; [|done].
  by destruct (0 <? _).
Qed.

End BulkLedger.

(** ** The bulk update of the production-ready version *)

Section ProductionBulk.

Lemma production_bulk_step k c rest st w :
  Production.bulk_loop ((k, c) :: rest) st w =
  match parseInt c with
  | None => (Thrown type_error, w)
  | Some NaN => Production.bulk_loop rest (Production.fail st (trim k +:+ ": Invalid number")) w
  | Some v =>
      match outcome w (calls w) with
      | Some e =>
          Production.bulk_loop rest (Production.fail st (trim k +:+ ": " +:+ e)) (tick w)
      | None =>
          match rooms w !! trim k, v with
          | Some _, Int n =>
              Production.bulk_loop rest (Production.succeed st) (with_room (trim k) n (tick w))
          | Some _, _ =>
              Production.bulk_loop rest
                (Production.fail st (trim k +:+ ": " +:+ null_available)) (tick w)
          | None, _ => Production.bulk_loop rest (Production.succeed st) (tick w)
          end
      end
  end.
Proof.
  cbn [Production.bulk_loop]. rewrite bind_convert.
  destruct (parseInt c) as [[n| |negative]|]; cbn [isNaN]; try done;
    rewrite bind_lift, update_available_select_run;
    (destruct (outcome w (calls w)); [done|]);
    by destruct (rooms w !! trim k).
Qed.

End ProductionBulk.

(** Induction along the loop: the empty request, then the ways an entry can
    go. *)
Ltac along_production_loop updates st w :=
  revert st w;
  induction updates as [|[k c] rest IH]; intros st w;
  [ | rewrite production_bulk_step;
      destruct (parseInt c) as [[n| |negative]|] eqn:Hparse;
      [ destruct (outcome w (calls w)) as [e|] eqn:Hcall;
        [ | destruct (rooms w !! trim k) as [old|] eqn:Hroom ]
      |
      | destruct (outcome w (calls w)) as [e|] eqn:Hcall;
        [ | destruct (rooms w !! trim k) as [old|] eqn:Hroom ]
      | ] ].

Section ProductionLedger.

Lemma production_bulk_loop_nonneg updates st w :
  nonneg (rooms w) →
  (∀ room count n, (room, count) ∈ updates → parseInt count = Some (Int n) → 0 ≤ n) →
  nonneg (rooms (Production.bulk_loop updates st w).2).
Proof.
  along_production_loop updates st w; intros Hw Hc; try done;
    (apply IH; [|intros room' count' n' Hin; apply (Hc room'); by apply list_elem_of_further]);
    try done.
  apply nonneg_insert; [done|]. apply (Hc k c); [apply list_elem_of_here|done].
Qed.

Lemma production_bulk_update_state updates w :
  (Production.bulk_update updates w).2 = (Production.bulk_loop updates Production.no_stats w).2.
Proof.
  unfold Production.bulk_update. rewrite catch_run. destruct updates as [|u rest]; [done|].
  rewrite bind_block.
  destruct (Production.bulk_loop (u :: rest) Production.no_stats w) as [[st|e] w']; [|done].
  by destruct (0 <? _).
Qed.

End ProductionLedger.

(** ** The bulk update of the updated-schema version *)

Section SchemaBulk.

Lemma schema_bulk_step k v rest w :
  Schema.bulk_calls ((k, v) :: rest) w =
  ((update_available_select k v w).1
     :: (Schema.bulk_calls rest (update_available_select k v w).2).1,
   (Schema.bulk_calls rest (update_available_select k v w).2).2).
Proof.
  cbn. rewrite !bind_run. cbn.
  by destruct (Schema.bulk_calls rest _).
Qed.

(** One call of [Promise.all], by its outcome. *)
Lemma schema_bulk_call k v w :
  (∃ e, outcome w (calls w) = Some e
        ∧ update_available_select k v w = ({| data := None; error := Some e |}, tick w))
  ∨ (outcome w (calls w) = None ∧ rooms w !! k = None
     ∧ update_available_select k v w = ({| data := Some []; error := None |}, tick w))
  ∨ (∃ n, outcome w (calls w) = None ∧ is_Some (rooms w !! k) ∧ v = Int n
          ∧ update_available_select k v w =
            ({| data := Some [(k, n)]; error := None |}, with_room k n (tick w)))
  ∨ (outcome w (calls w) = None ∧ is_Some (rooms w !! k) ∧ (∀ n, v ≠ Int n)
     ∧ update_available_select k v w =
       ({| data := None; error := Some null_available |}, tick w)).
Proof.
  rewrite update_available_select_run.
  destruct (outcome w (calls w)) as [e|]; [left; by exists e|].
  destruct (rooms w !! k) as [old|] eqn:Hk; [|right; left; done].
  destruct v as [n| |negative]; [right; right; left; exists n|right; right; right..];
    repeat split; by eauto.
Qed.

End SchemaBulk.

Ltac along_schema_calls builders w :=
  revert w;
  induction builders as [|[k v] rest IH]; intros w;
  [ | rewrite schema_bulk_step;
      destruct (schema_bulk_call k v w)
        as [(e & Hcall & ->) | [(Hcall & Hroom & ->) | [(n & Hcall & Hroom & Hparse & ->)
           | (Hcall & Hroom & Hparse & ->)]]]; cbn [fst snd] ].

Section SchemaLedger.

Lemma schema_bulk_calls_nonneg builders w :
  nonneg (rooms w) →
  (∀ room n, (room, Int n) ∈ builders → 0 ≤ n) →
  nonneg (rooms (Schema.bulk_calls builders w).2).
Proof.
  along_schema_calls builders w; intros Hw Hc; try done;
    (apply IH; [|intros room' n' Hin; apply (Hc room'); by apply list_elem_of_further]);
    try done.
  apply nonneg_insert; [done|]. apply (Hc k). subst v. apply list_elem_of_here.
Qed.

(** The updates built are the entries with their counts parsed. *)
Lemma schema_builders updates builders :
  Schema.bulk_builders updates = Some builders →
  Forall2 (λ u c, c.1 = u.1 ∧ parseInt u.2 = Some c.2) updates builders.
Proof.
  revert builders. induction updates as [|[k c] rest IH]; intros builders.
  - intros [= <-]. constructor.
  - cbn. destruct (parseInt c) as [n|] eqn:Hn; [|done]. cbn.
    destruct (Schema.bulk_builders rest) as [bs|]; [|done]. cbn.
    intros [= <-]. constructor; [done|]. by apply IH.
Qed.

Lemma schema_builders_elem updates builders room v :
  Schema.bulk_builders updates = Some builders → (room, v) ∈ builders →
  ∃ count, (room, count) ∈ updates ∧ parseInt count = Some v.
Proof.
  intros H%schema_builders Hin. induction H as [|[k c] [k' v'] us bs [Hk Hc] _ IH].
  - by apply elem_of_nil in Hin.
  - cbn in Hk, Hc. subst k'. apply elem_of_cons in Hin as [[= -> ->]|Hin].
    + exists c. split; [apply list_elem_of_here|done].
    + destruct (IH Hin) as (count & Hcount & Hparse). exists count.
      split; [by apply list_elem_of_further|done].
Qed.

Lemma schema_bulk_update_state updates w :
  (Schema.bulk_update updates w).2 =
  match Schema.bulk_builders updates with
  | Some builders => (Schema.bulk_calls builders w).2
  | None => w
  end.
Proof.
  unfold Schema.bulk_update. rewrite catch_run, bind_convert.
  destruct (Schema.bulk_builders updates) as [builders|]; [|done].
  rewrite bind_lift. by destruct (0 <? _).
Qed.

End SchemaLedger.

Section LedgerClaim.

(** C4 (as amended): the booking handlers of the three Supabase versions
    keep every count of the ledger non-negative, whatever the request and
    whatever fails.  The bulk updates do not coerce the count: they keep the
    ledger non-negative when no count of the request parses to a negative
    integer, and src/server.js stores [parseInt(count) || 0], which is the
    parsed count, a negative one included, for a count that parses to an
    integer. *)
Theorem ledger_stays_nonnegative
    (w : db) (b : gmap string value) (updates : list (string * value)) :
  nonneg (rooms w) →
  (nonneg (rooms (Server.post_bookings b w).2)
   ∧ nonneg (rooms (Production.post_bookings b w).2)
   ∧ nonneg (rooms (Schema.post_bookings b w).2))
  ∧ ((∀ room count n, (room, count) ∈ updates → parseInt count = Some (Int n) → 0 ≤ n) →
     nonneg (rooms (Server.bulk_update updates w).2)
     ∧ nonneg (rooms (Production.bulk_update updates w).2)
     ∧ nonneg (rooms (Schema.bulk_update updates w).2))
  ∧ (∀ room count n,
       planned 0 w = None → is_Some (rooms w !! trim room) →
       parseInt count = Some (Int n) →
       rooms (Server.bulk_update [(room, count)] w).2 !! trim room = Some n).
Proof.
  intros Hw. split; [|split].
  - split; [by apply server_booking_nonneg|].
    split; [by apply production_booking_nonneg|by apply schema_booking_nonneg].
  - intros Hc. split; [|split].
    + rewrite server_bulk_update_state. by apply server_bulk_loop_nonneg.
    + rewrite production_bulk_update_state. by apply production_bulk_loop_nonneg.
    + rewrite schema_bulk_update_state.
      destruct (Schema.bulk_builders updates) as [builders|] eqn:Hb; [|done].
      apply schema_bulk_calls_nonneg; [done|]. intros room n Hin.
      destruct (schema_builders_elem updates builders room (Int n) Hb Hin)
        as (count & Hcount & Hparse).
      by apply (Hc room count).
  - intros room count n H0 [old Hold] Hn.
    rewrite server_bulk_update_state, server_bulk_step, available_of_parsed, Hn.
    unfold planned in H0. cbn in H0. cbn. rewrite H0, Hold. cbn.
    apply lookup_insert_eq.
Qed.

End LedgerClaim.

(** ** The bulk update of the production-ready version, entry by entry *)

Section ProductionEntries.

Lemma convertible_cons k c rest :
  convertible ((k, c) :: rest) → is_Some (parseInt c) ∧ convertible rest.
Proof.
  intros H. split; [apply (H k), list_elem_of_here|].
  intros k' c' Hin. apply (H k'). by apply list_elem_of_further.
Qed.


End ProductionEntries.


Section ProductionLoop.









Lemma quiet_tick n w w' :
  quiet (S n) w → calls w' = S (calls w) → outcome w' = outcome w → quiet n w'.
Proof.
  intros Hq Hc Ho i Hi. specialize (Hq (S i) ltac:(lia)). unfold planned in *.
  rewrite Hc, Ho. cbn in Hq. by rewrite Nat.add_succ_r.
Qed.

Lemma quiet_first n w : quiet (S n) w → outcome w (calls w) = None.
Proof. intros Hq. apply (Hq 0%nat). lia. Qed.


End ProductionLoop.

Section ProductionBulkClaim.




End ProductionBulkClaim.

(** ** Decimal numerals: [parseInt] reads back what [String] prints *)

Section Decimal.

Lemma digit_pretty x :
  digit 10 (pretty_N_char (x `mod` 10)%N) = Some (Z.of_N (x `mod` 10)%N).
Proof.
  pose proof (N.mod_lt x 10 ltac:(done)) as H.
  generalize dependent (x `mod` 10)%N. intros y Hy.
  assert (y = 0 ∨ y = 1 ∨ y = 2 ∨ y = 3 ∨ y = 4 ∨ y = 5 ∨ y = 6 ∨ y = 7 ∨ y = 8 ∨ y = 9)%N
    as Hc by lia.
  destruct Hc as [-> | [-> | [-> | [-> | [-> | [-> | [-> | [-> | [-> | ->]]]]]]]]];
    reflexivity.
Qed.

Lemma digits_pretty_go x s :
  digits 10 (pretty_N_go x s) None =
  digits 10 s (if decide (x = 0)%N then None else Some (Z.of_N x)).
Proof.
  revert s. induction (N.lt_wf_0 x) as [x _ IH]. intros s.
  destruct (decide (x = 0)%N) as [->|Hx]; [done|].
  rewrite pretty_N_go_step by lia.
  rewrite IH by (apply N.div_lt; lia). cbn. rewrite digit_pretty. f_equal.
  pose proof (N.div_mod x 10 ltac:(done)) as Hdm.
  destruct (decide (x `div` 10 = 0)%N) as [H0|H0]; cbn; f_equal; lia.
Qed.

Lemma all_digits_pretty_go x s : all_digits s → all_digits (pretty_N_go x s).
Proof.
  revert s. induction (N.lt_wf_0 x) as [x _ IH]. intros s Hs.
  destruct (decide (x = 0)%N) as [->|Hx]; [done|].
  rewrite pretty_N_go_step by lia. apply IH; [apply N.div_lt; lia|].
  split; [|done]. rewrite digit_pretty. by eexists.
Qed.

(** A decimal digit is no white space, starts none, and is no sign and no
    [x]. *)
Lemma digit_plain a :
  is_Some (digit 10 a) →
  is_space a = false ∧ (∀ b, is_space2 a b = false) ∧ (∀ b c, is_space3 a b c = false)
  ∧ a ≠ "-"%char ∧ a ≠ "+"%char ∧ a ≠ "x"%char ∧ a ≠ "X"%char.
Proof.
  destruct a as [[] [] [] [] [] [] [] []]; intros [d Hd]; vm_compute in Hd;
    try discriminate; repeat split; try discriminate; reflexivity.
Qed.

Ltac by_cases_on a := destruct a as [[] [] [] [] [] [] [] []]; try done.

Lemma trim_start_plain a r :
  is_space a = false → (∀ b, is_space2 a b = false) → (∀ b c, is_space3 a b c = false) →
  trim_start (String a r) = String a r.
Proof.
  intros Hspace Hspace2 Hspace3. unfold trim_start. cbn [skip_space]. rewrite Hspace.
  destruct r as [|b r1]; [done|]. rewrite Hspace2.
  destruct r1 as [|c r2]; [done|]. by rewrite Hspace3.
Qed.

Lemma strip_nothing s :
  all_digits s →
  trim_start s = s ∧ strip_sign s = (false, s) ∧ strip_prefix s = (10, s).
Proof.
  destruct s as [|a r]; [done|]. intros [Ha Hr].
  destruct (digit_plain a Ha) as (Hspace & Hspace2 & Hspace3 & Hminus & Hplus & _).
  split; [|split].
  - by apply trim_start_plain.
  - clear -Hminus Hplus. by_cases_on a.
  - destruct r as [|c r']; [clear; by_cases_on a|].
    destruct Hr as [Hc _]. destruct (digit_plain c Hc) as (_ & _ & _ & _ & _ & Hx & HX).
    clear -Hx HX. by_cases_on a. by_cases_on c.
Qed.

Lemma parseInt_digits s :
  all_digits s →
  parseInt_string s = match digits 10 s None with
                      | Some n => double n
                      | None => NaN
                      end.
Proof.
  intros (Ht & Hs & Hp)%strip_nothing. unfold parseInt_string.
  rewrite Ht, Hs. cbv beta iota zeta. by rewrite Hp.
Qed.

Lemma parseInt_minus_digits s :
  all_digits s →
  parseInt_string (String "-" s) = match digits 10 s None with
                                   | Some n => double (- n)
                                   | None => NaN
                                   end.
Proof.
  intros (_ & _ & Hp)%strip_nothing. unfold parseInt_string.
  rewrite trim_start_plain by done.
  change (strip_sign (String "-" s)) with (true, s).
  cbv beta iota zeta. by rewrite Hp.
Qed.

(** An integer below 2^53 is a double. *)
Lemma double_safe z : Z.abs z < 2 ^ 53 → double z = Int z.
Proof. intros H. unfold double. by rewrite (proj2 (Z.ltb_lt _ _) H). Qed.

Lemma parseInt_pretty z : parseInt_string (pretty z) = double z.
Proof.
  destruct z as [|p|p]; [done| |];
    unfold pretty, pretty_Z, pretty, pretty_positive, pretty, pretty_N;
    (destruct (decide (N.pos p = 0)%N); [done|]).
  - rewrite parseInt_digits by by apply all_digits_pretty_go.
    rewrite digits_pretty_go. by destruct (decide (N.pos p = 0)%N).
  - rewrite append_cons, append_empty.
    rewrite parseInt_minus_digits by by apply all_digits_pretty_go.
    rewrite digits_pretty_go. by destruct (decide (N.pos p = 0)%N).
Qed.

(** The round trip: a number below 2^53 converted to a string parses to
    itself. *)
Lemma parseInt_number z : Z.abs z < 2 ^ 53 → parseInt (Num (Int z)) = Some (Int z).
Proof.
  intros H. unfold parseInt, to_string, num_to_string.
  rewrite (proj2 (Z.ltb_lt _ _) H). cbn [fmap option_fmap option_map].
  by rewrite parseInt_pretty, double_safe.
Qed.

End Decimal.

(** ** The quantity of a request *)

Section Quantity.



End Quantity.

(** ** The claims at sample inputs *)

Section Samples.




(** The scenario of the specification: three suites, two bookings of two
    suites each; the second is refused and one suite remains. *)
Example two_bookings_in_a_row :
  (Server.post_bookings (Sample.request (Str "Suite") (Str "2"))
     (Server.post_bookings (Sample.request (Str "Suite") (Str "2"))
        (Sample.world Sample.never)).2).1 = Server.sold_out
  ∧ rooms (Server.post_bookings (Sample.request (Str "Suite") (Str "2"))
             (Server.post_bookings (Sample.request (Str "Suite") (Str "2"))
                (Sample.world Sample.never)).2).2 !! "Suite" = Some 1.
Proof. split; reflexivity. Qed.

Lemma failed_insert_restores_stock_sample :
  (Server.post_bookings (Sample.request (Str "Suite") (Str "2"))
     (Sample.world Sample.insert_fails)).1 = Server.caught "insert failed"
  ∧ rooms (Server.post_bookings (Sample.request (Str "Suite") (Str "2"))
             (Sample.world Sample.insert_fails)).2 !! "Suite" = Some 3
  ∧ bookings (Server.post_bookings (Sample.request (Str "Suite") (Str "2"))
                (Sample.world Sample.insert_fails)).2 = [].
Proof.
  apply (proj1 (failed_insert_restores_stock (Sample.world Sample.insert_fails)
                  (Sample.request (Str "Suite") (Str "2")) "Suite" 3 2 "insert failed"
                  eq_refl eq_refl eq_refl eq_refl ltac:(lia) eq_refl)
           (ex_intro _ "Ada" eq_refl) eq_refl eq_refl).
  by eexists.
Defined.

(** C2, as stated, fails: when the rollback write fails as well, the room
    type is not back at the count read before the reservation. *)
Lemma failed_rollback_leaves_stock_short :
  rooms (Sample.world Sample.both_fail) !! "Suite" = Some 3
  ∧ (Server.post_bookings (Sample.request (Str "Suite") (Str "2"))
       (Sample.world Sample.both_fail)).1 = Server.caught "insert failed"
  ∧ rooms (Server.post_bookings (Sample.request (Str "Suite") (Str "2"))
             (Sample.world Sample.both_fail)).2 !! "Suite" = Some 1
  ∧ rooms (Schema.post_bookings (Sample.request (Str "Suite") (Str "2"))
             (Sample.world Sample.both_fail)).2 !! "Suite" = Some 1.
Proof. repeat split. Qed.


(** C3, as stated, fails: the file store books a room type it does not
    know, and the updated-schema version answers with its generic 500. *)
Lemma unknown_room_type_is_booked :
  lookup (FileStore.availabilityCache Sample.cache) "Ghost Room" = Missing
  ∧ FileStore.status
      (FileStore.post_bookings (Sample.form (Str "Ghost Room") (Str "1")) Sample.cache).1 = 200
  ∧ length (FileStore.bookingsCache
              (FileStore.post_bookings (Sample.form (Str "Ghost Room") (Str "1"))
                 Sample.cache).2) = 1%nat
  ∧ (Schema.post_bookings (Sample.request (Str "Ghost Room") (Str "1"))
       (Sample.world Sample.never)).1 =
    {| Store.status := 500;
       Store.body := Obj [("error", Str "Failed to process booking");
                          ("details", Str no_rows)] |}.
Proof. repeat split. Qed.

Lemma unknown_room_type_outcomes_sample :
  Server.post_bookings (Sample.request (Str "Ghost Room") (Str "1")) (Sample.world Sample.never)
  = (Server.not_found, tick (Sample.world Sample.never))
  ∧ Schema.post_bookings (Sample.request (Str "Ghost Room") (Str "1"))
      (Sample.world Sample.never)
    = (Schema.caught no_rows, tick (Sample.world Sample.never))
  ∧ FileStore.bookingsCache
      (FileStore.post_bookings (Sample.form (Str "Ghost Room") (Str "1")) Sample.cache).2
    = [FileStore.booking_of (Sample.form (Str "Ghost Room") (Str "1"))].
Proof.
  pose proof (unknown_room_type_outcomes (Sample.world Sample.never)
                (Sample.request (Str "Ghost Room") (Str "1")) "Ghost Room"
                (Sample.form (Str "Ghost Room") (Str "1")) Sample.cache "Ghost Room")
    as (Hserver & _ & Hschema & Hfile).
  split; [exact (Hserver (ex_intro _ "Ada" eq_refl) eq_refl eq_refl)|].
  split; [exact (Hschema eq_refl eq_refl)|].
  exact (proj1 (proj2 (Hfile eq_refl (ex_intro _ (Int 1) eq_refl) eq_refl))).
Defined.



(** C9, as stated, fails: src/server.js refuses five suites out of three
    with a message that does not include the count. *)
Lemma sold_out_message_has_no_count :
  rooms (Sample.world Sample.never) !! "Suite" = Some 3
  ∧ (Server.post_bookings (Sample.request (Str "Suite") (Str "5"))
       (Sample.world Sample.never)).1 =
    {| Store.status := 400; Store.body := Obj [("error", Str "Room category sold out")] |}
  ∧ mentions (Store.body (Server.post_bookings (Sample.request (Str "Suite") (Str "5"))
                            (Sample.world Sample.never)).1) (num_to_string (Int 3)) = false.
Proof. repeat split. Qed.

Lemma rejection_message_names_stock_sample :
  ∃ key v currentStock msg,
    FileStore.key (Sample.form (Str "Suite Room") (Str "5")) = Some key
    ∧ FileStore.availabilityCache Sample.cache !! key = Some v
    ∧ parseInt v = Some currentStock
    ∧ FileStore.body (FileStore.post_bookings (Sample.form (Str "Suite Room") (Str "5"))
                        Sample.cache).1 = Obj [("error", Str msg)]
    ∧ includes msg (num_to_string currentStock) = true.
Proof.
  apply (rejection_message_names_stock (Sample.world Sample.never)
           (Sample.request (Str "Suite") (Str "5"))
           (Sample.form (Str "Suite Room") (Str "5")) Sample.cache).
  reflexivity.
Defined.

(** C10, as stated, fails: in the updated-schema version a request with
    [valid_id] "No" and no [coming_with_id] is stored with the flag set,
    because the older field name says "Yes". *)
Lemma older_field_name_sets_flag :
  get Sample.two_answers "valid_id" = Str "No"
  ∧ get Sample.two_answers "coming_with_id" = Undefined
  ∧ Store.status (Schema.post_bookings Sample.two_answers (Sample.world Sample.never)).1 = 200
  ∧ coming_with_id <$>
      last (bookings (Schema.post_bookings Sample.two_answers (Sample.world Sample.never)).2)
    = Some true.
Proof. repeat split. Qed.

Lemma coming_with_id_flag_sample :
  ∃ r, Server.record (Sample.request (Str "Suite") (Str "2")) = Some r
       ∧ last (bookings (Server.post_bookings (Sample.request (Str "Suite") (Str "2"))
                           (Sample.world Sample.never)).2) = Some r
       ∧ (coming_with_id r = true
          ↔ get (Sample.request (Str "Suite") (Str "2")) "valid_id" = Str "Yes").
Proof.
  apply (coming_with_id_flag (Sample.world Sample.never)
           (Sample.request (Str "Suite") (Str "2"))).
  reflexivity.
Defined.

End Samples.

Section BulkSamples.

Lemma nonneg_ledger : nonneg Sample.ledger.
Proof.
  intros rt n. unfold Sample.ledger. rewrite lookup_singleton_Some. intros [_ <-]. lia.
Defined.


(** C4, as stated, fails: the bulk updates write a negative count into a
    ledger that had none. *)
Lemma negative_count_is_stored :
  rooms (Sample.world Sample.never) !! "Suite" = Some 3
  ∧ rooms (Server.bulk_update [("Suite", Num (Int (-5)))] (Sample.world Sample.never)).2
    !! "Suite" = Some (-5)
  ∧ rooms (Production.bulk_update [("Suite", Str "-5")] (Sample.world Sample.never)).2
    !! "Suite" = Some (-5)
  ∧ rooms (Schema.bulk_update [("Suite", Str "-5")] (Sample.world Sample.never)).2
    !! "Suite" = Some (-5).
Proof. repeat split; reflexivity. Qed.

Lemma ledger_stays_nonnegative_sample :
  rooms (Server.bulk_update [("Suite", Str "7")] (Sample.world Sample.never)).2
  !! "Suite" = Some 7
  ∧ nonneg (rooms (Server.bulk_update Sample.sheet (Sample.world Sample.never)).2).
Proof.
  split.
  - exact (proj2 (proj2 (ledger_stays_nonnegative (Sample.world Sample.never)
                           (Sample.request (Str "Suite") (Str "2")) [] nonneg_ledger))
             "Suite" (Str "7") 7 eq_refl (ex_intro _ 3 eq_refl) eq_refl).
  - apply (proj1 (proj2 (ledger_stays_nonnegative (Sample.world Sample.never)
                           (Sample.request (Str "Suite") (Str "2")) Sample.sheet
                           nonneg_ledger))).
    intros room count n Hin Hn.
    apply elem_of_cons in Hin as [[= -> ->]|Hin].
    + vm_compute in Hn. injection Hn as <-. lia.
    + apply elem_of_cons in Hin as [[= -> ->]|Hin]; [discriminate|].
      by apply not_elem_of_nil in Hin.
Defined.



(** C7 at a form whose quantity is the text "abc", posted to the file store
    with three suites: the quantity is read as NaN, the stock check lets the
    booking through and the count of the room type becomes NaN, where the
    claim has one room booked and two left.  src/server.js reads the same
    quantity as 1. *)
Theorem unparseable_quantity_in_file_store :
  FileStore.requestedQty (Sample.form (Str "Suite Room") (Str "abc")) = Some NaN
  ∧ FileStore.status
      (FileStore.post_bookings (Sample.form (Str "Suite Room") (Str "abc")) Sample.cache).1 = 200
  ∧ FileStore.availabilityCache
      (FileStore.post_bookings (Sample.form (Str "Suite Room") (Str "abc")) Sample.cache).2
    !! "Suite Room" = Some (Num NaN)
  ∧ Server.qty (Sample.request (Str "Suite") (Str "abc")) = Some (Int 1).
Proof. repeat split; reflexivity. Qed.

End BulkSamples.

(** * Further properties of the handlers *)

(** ** What a booking request can and cannot change *)

Section BookingEffects.

Ltac stored_or_not :=
  ends;
  first [ right; split; [done|done]
        | left; split; [done|]; eexists; split; [done|done] ].

(** X1: in the three Supabase versions a booking row is stored exactly when
    the request is answered with status 200, and then it is the one row built
    from the request, added after the rows already there. *)
Theorem booking_stored_iff_confirmed (w : db) (b : gmap string value) :
  (Store.status (Server.post_bookings b w).1 = 200
   ∧ (∃ r, Server.record b = Some r
           ∧ bookings (Server.post_bookings b w).2 = bookings w ++ [r])
   ∨ Store.status (Server.post_bookings b w).1 ≠ 200
     ∧ bookings (Server.post_bookings b w).2 = bookings w)
  ∧ (Store.status (Production.post_bookings b w).1 = 200
     ∧ (∃ r, Production.bookingRecord b = Some r
             ∧ bookings (Production.post_bookings b w).2 = bookings w ++ [r])
     ∨ Store.status (Production.post_bookings b w).1 ≠ 200
       ∧ bookings (Production.post_bookings b w).2 = bookings w)
  ∧ (Store.status (Schema.post_bookings b w).1 = 200
     ∧ (∃ k, Schema.booking_of b = Some k
             ∧ bookings (Schema.post_bookings b w).2 = bookings w ++ [k])
     ∨ Store.status (Schema.post_bookings b w).1 ≠ 200
       ∧ bookings (Schema.post_bookings b w).2 = bookings w).
Proof.
  split; [|split].
  - rewrite server_run. stored_or_not.
  - rewrite production_run. stored_or_not.
  - rewrite schema_run. stored_or_not.
Qed.

Lemma dom_write (m : gmap string Z) r N k : m !! r = Some N → dom (<[r := k]> m) = dom m.
Proof. intros Hm. apply dom_insert_lookup_L. by eexists. Qed.

Ltac one_room_type :=
  ends;
  repeat match goal with
         | H : ?m !! ?r = Some _ |- context [<[?r := _]> (<[?r := _]> ?m)] =>
             rewrite insert_insert_eq
         | H : ?m !! ?r = Some _ |- context [dom (<[?r := _]> ?m)] =>
             rewrite (dom_write _ _ _ _ H)
         end;
  (split; [done|]); intros rt' Hrt'; rewrite ?lookup_insert_ne by congruence; done.

(** X2: a booking request never adds or removes a room type, and never
    changes the count of a room type other than the one it names, whatever
    the request and whichever calls fail. *)
Theorem booking_touches_one_room_type (w : db) (b : gmap string value) :
  (dom (rooms (Server.post_bookings b w).2) = dom (rooms w)
   ∧ ∀ rt, Server.room_type b ≠ Some rt →
           rooms (Server.post_bookings b w).2 !! rt = rooms w !! rt)
  ∧ (dom (rooms (Production.post_bookings b w).2) = dom (rooms w)
     ∧ ∀ rt, Production.room_type b ≠ Some rt →
             rooms (Production.post_bookings b w).2 !! rt = rooms w !! rt)
  ∧ (dom (rooms (Schema.post_bookings b w).2) = dom (rooms w)
     ∧ ∀ rt, Schema.room_type b ≠ Some rt →
             rooms (Schema.post_bookings b w).2 !! rt = rooms w !! rt).
Proof.
  split; [|split].
  - rewrite server_run. one_room_type.
  - rewrite production_run. one_room_type.
  - rewrite schema_run. one_room_type.
Qed.

Ltac ledger_kept :=
  ends; try done; try congruence;
  try (exfalso; by eauto using is_Some_None);
  intros _; by apply restore_rooms.

(** X3: a booking request that is not answered with status 200 leaves the
    whole ledger as it was, for every cause of the refusal, as long as the
    fourth call to the store (the rollback, when the handler gets that far) is
    not one that fails and, in src/server.js and the production-ready version,
    the amount of the request can be converted. *)
Theorem refused_booking_keeps_ledger (w : db) (b : gmap string value) :
  planned 3 w = None →
  (is_Some (parseInt (get b "total_amount")) →
   Store.status (Server.post_bookings b w).1 ≠ 200 →
   rooms (Server.post_bookings b w).2 = rooms w)
  ∧ (is_Some (parseInt (or (get b "total_amount") (get b "payment_amount"))) →
     Store.status (Production.post_bookings b w).1 ≠ 200 →
     rooms (Production.post_bookings b w).2 = rooms w)
  ∧ (Store.status (Schema.post_bookings b w).1 ≠ 200 →
     rooms (Schema.post_bookings b w).2 = rooms w).
Proof.
  intros H3. split; [|split].
  - intros Hamount. rewrite server_run.
    destruct (Server.qty b) as [qty|] eqn:Hqty.
    + destruct (server_record_some b qty Hqty Hamount) as [r Hr]. rewrite Hr. ledger_kept.
    + ledger_kept.
  - intros Hamount. rewrite production_run.
    destruct (Production.quantity b) as [qty|] eqn:Hqty.
    + destruct (production_record_some b qty Hqty Hamount) as [r Hr]. rewrite Hr. ledger_kept.
    + ledger_kept.
  - rewrite schema_run. ledger_kept.
Qed.

(** X4: what the caller sees when one of the first two calls fails, for a
    request whose fields can be converted.  A failing lookup is answered as an
    unknown room type by src/server.js (404) and by the production-ready
    version (400), with no trace of the cause, and through the [catch] clause
    by the updated-schema version.  A failing stock write is answered with 500
    and its message by src/server.js and the production-ready version; nothing
    has been written and the insertion is not attempted. *)
Theorem early_store_failures (w : db) (b : gmap string value) (rt e : string) :
  (planned 0 w = Some e →
   (is_Some (to_string (get b "guest_name")) → Server.room_type b = Some rt →
    Server.post_bookings b w = (Server.not_found, tick w))
   ∧ (Production.room_type b = Some rt →
      Production.post_bookings b w = (Production.not_found, tick w))
   ∧ (Schema.room_type b = Some rt →
      Schema.post_bookings b w = (Schema.caught e, tick w)))
  ∧ (planned 0 w = None → planned 1 w = Some e →
     ∀ N q, rooms w !! rt = Some N → q ≤ N →
            (is_Some (to_string (get b "guest_name")) → Server.room_type b = Some rt →
             Server.qty b = Some (Int q) →
             Server.post_bookings b w = (Server.caught e, tick (tick w)))
            ∧ (Production.room_type b = Some rt → Production.quantity b = Some (Int q) →
               Production.post_bookings b w = (Production.caught e, tick (tick w)))).
Proof.
  split.
  - intros H0. split; [|split].
    + intros [g Hg] Hrt. by rewrite server_run, Hg, Hrt, H0.
    + intros Hrt. by rewrite production_run, Hrt, H0.
    + intros Hrt. rewrite schema_run, Hrt, H0.
      unfold Schema.room_type in Hrt. by destruct (Schema.booking_of b).
  - intros H0 H1 N q HN Hle. split.
    + intros [g Hg] Hrt Hqty. by rewrite server_run, Hg, Hrt, H0, HN, Hqty, covers, H1.
    + intros Hrt Hqty. by rewrite production_run, Hrt, H0, HN, Hqty, covers, H1.
Qed.




End BookingEffects.

(** ** The bulk update of src/server.js, entry by entry *)

(** Induction along the loop over a request whose counts can be converted:
    the empty request, then the ways an entry can go: its call fails; its room
    type is in the table and the count parses to an integer, to NaN or to an
    infinity; its room type is not in the table. *)
Ltac along_server_entries updates results w :=
  intros Hconv; revert results w;
  induction updates as [|[k c] rest IH]; intros results w;
  [ | apply convertible_cons in Hconv as [[parsed Hparse] Hconv];
      specialize (IH Hconv); rewrite server_bulk_step, available_of_parsed, Hparse;
      cbn [fmap option_fmap option_map];
      destruct (outcome w (calls w)) as [e|] eqn:Hcall;
      [ | destruct (rooms w !! trim k) as [old|] eqn:Hroom;
          [ destruct parsed as [n| |negative] | ] ] ].

Section ServerBulk.

Lemma server_bulk_run updates results w :
  convertible updates →
  ∃ results', Server.bulk_loop updates results w
              = (Normal results', (Server.bulk_loop updates results w).2).
Proof. along_server_entries updates results w; [by eexists|..]; apply IH. Qed.

Lemma server_bulk_app pre post results w :
  convertible pre →
  ∀ results1, (Server.bulk_loop pre results w).1 = Normal results1 →
              Server.bulk_loop (pre ++ post) results w =
              Server.bulk_loop post results1 (Server.bulk_loop pre results w).2.
Proof.
  along_server_entries pre results w; [by intros r1 [= <-]|..]; intros r1 H1;
    rewrite <- app_comm_cons, server_bulk_step, available_of_parsed, Hparse;
    cbn [fmap option_fmap option_map]; rewrite Hcall, ?Hroom; by apply IH.
Qed.

(** Every entry ends in one of the two lists. *)
Lemma server_bulk_counts updates results w :
  convertible updates →
  ∀ results', (Server.bulk_loop updates results w).1 = Normal results' →
    (length results'.1 + length results'.2
     = length results.1 + length results.2 + length updates)%nat.
Proof.
  along_server_entries updates results w; [intros r' [= <-]; cbn; lia|..]; intros r' H';
    rewrite (IH _ _ r' H'); cbn; rewrite length_app; cbn; lia.
Qed.

(** The loop calls the store once per entry. *)
Lemma server_bulk_calls updates results w :
  convertible updates →
  calls (Server.bulk_loop updates results w).2 = (length updates + calls w)%nat
  ∧ outcome (Server.bulk_loop updates results w).2 = outcome w
  ∧ bookings (Server.bulk_loop updates results w).2 = bookings w.
Proof.
  along_server_entries updates results w; [done|..];
    match goal with |- context [Server.bulk_loop _ ?r' ?w'] =>
      destruct (IH r' w') as (IH1 & IH2 & IH3) end;
    rewrite IH1, IH2, IH3; cbn; (split; [lia|done]).
Qed.

Lemma server_bulk_dom updates results w :
  dom (rooms (Server.bulk_loop updates results w).2) = dom (rooms w).
Proof.
  along_server_loop updates results w; try done; rewrite IH; cbn; try done;
    apply dom_insert_lookup_L; by eexists.
Qed.

Lemma server_bulk_frame updates results w r :
  (∀ k c, (k, c) ∈ updates → trim k ≠ r) →
  rooms (Server.bulk_loop updates results w).2 !! r = rooms w !! r.
Proof.
  along_server_loop updates results w; try done; intros Hr;
    (rewrite IH; [|intros k' c' Hin; apply (Hr k' c'); by apply list_elem_of_further]);
    cbn; try done;
    apply lookup_insert_ne, (Hr k c), list_elem_of_here.
Qed.

(** When no call fails and no count is an infinity, the loop reports every
    entry as a success, in the order of the request. *)
Lemma server_bulk_quiet updates results w :
  convertible updates →
  quiet (length updates) w →
  (∀ k c negative, (k, c) ∈ updates → parseInt c ≠ Some (Inf negative)) →
  (Server.bulk_loop updates results w).1 = Normal (results.1 ++ updates.*1, results.2).
Proof.
  along_server_entries updates results w; intros Hq Hinf.
  - cbn. rewrite app_nil_r. by destruct results.
  - apply quiet_first in Hq. congruence.
  - rewrite IH; [cbn; by rewrite <- app_assoc| |].
    + by apply (quiet_tick _ w).
    + intros k' c' neg Hin. apply (Hinf k'). by apply list_elem_of_further.
  - rewrite IH; [cbn; by rewrite <- app_assoc| |].
    + by apply (quiet_tick _ w).
    + intros k' c' neg Hin. apply (Hinf k'). by apply list_elem_of_further.
  - by destruct (Hinf k c negative (list_elem_of_here _ _)).
  - rewrite IH; [cbn; by rewrite <- app_assoc| |].
    + by apply (quiet_tick _ w).
    + intros k' c' neg Hin. apply (Hinf k'). by apply list_elem_of_further.
Qed.

Lemma server_bulk_update_run updates w results :
  (Server.bulk_loop updates ([], []) w).1 = Normal results →
  Server.bulk_update updates w =
  (if 0 <? Z.of_nat (length results.2)
   then {| Store.status := 207;
           Store.body :=
             Obj [("success", Bool (0 <? Z.of_nat (length results.1)));
                  ("errors", Arr (Str <$> results.2))] |}
   else {| Store.status := 200;
           Store.body := Obj [("success", Bool true); ("message", Str "All rooms synced")] |},
   (Server.bulk_loop updates ([], []) w).2).
Proof.
  intros H. unfold Server.bulk_update. rewrite catch_run, bind_block.
  destruct (Server.bulk_loop updates ([], []) w) as [c w']. cbn in H. subst c.
  by destruct (0 <? _).
Qed.

(** A count that cannot be converted stops the loop where it stands. *)
Lemma server_bulk_abort pre room count post results w :
  convertible pre → parseInt count = None →
  Server.bulk_loop (pre ++ (room, count) :: post) results w
  = (Thrown type_error, (Server.bulk_loop pre results w).2).
Proof.
  intros Hpre Hcount. destruct (server_bulk_run pre results w Hpre) as [r1 H1].
  rewrite (server_bulk_app pre _ results w Hpre r1) by by rewrite H1.
  by rewrite server_bulk_step, available_of_parsed, Hcount.
Qed.

(** X7: the bulk update of src/server.js.  No room type is added or removed,
    and a room type that is not in the table is skipped without an error.  For
    a request whose counts can all be converted, every entry ends in exactly
    one of the two lists of the result, so the loop does not stop early, and
    when no call fails and no count is an infinity the answer is 200 "All
    rooms synced" whatever the entries are.  An entry whose room type exists
    and whose own call goes through leaves [parseInt(count) || 0] in the
    table, even when other entries fail, provided no later entry names the
    same room type.  A count that cannot be converted stops the loop: the
    answer is 500 "Sync failed", the entries before it have been applied and
    the ones after it have not. *)
Theorem server_bulk_update_effects (updates : list (string * value)) (w : db) :
  dom (rooms (Server.bulk_update updates w).2) = dom (rooms w)
  ∧ (convertible updates →
     (∃ results,
        (Server.bulk_loop updates ([], []) w).1 = Normal results
        ∧ (length results.1 + length results.2 = length updates)%nat)
     ∧ (quiet (length updates) w →
        (∀ k c negative, (k, c) ∈ updates → parseInt c ≠ Some (Inf negative)) →
        (Server.bulk_update updates w).1 =
        {| Store.status := 200;
           Store.body := Obj [("success", Bool true); ("message", Str "All rooms synced")] |}))
  ∧ (∀ pre room count post n,
       updates = pre ++ (room, count) :: post → convertible pre →
       Server.available_of count = Some (Int n) →
       is_Some (rooms w !! trim room) →
       planned (length pre) w = None →
       (∀ k c, (k, c) ∈ post → trim k ≠ trim room) →
       rooms (Server.bulk_update updates w).2 !! trim room = Some n)
  ∧ (∀ pre room count post,
       updates = pre ++ (room, count) :: post → convertible pre →
       parseInt count = None →
       Server.bulk_update updates w
       = (Server.sync_failed, (Server.bulk_loop pre ([], []) w).2)).
Proof.
  split; [|split; [|split]].
  - rewrite server_bulk_update_state. apply server_bulk_dom.
  - intros Hconv. destruct (server_bulk_run updates ([], []) w Hconv) as [results Hrun].
    assert ((Server.bulk_loop updates ([], []) w).1 = Normal results) as Hr by by rewrite Hrun.
    split.
    + exists results. split; [done|].
      apply (server_bulk_counts updates ([], []) w Hconv results Hr).
    + intros Hq Hinf. rewrite (server_bulk_update_run updates w results Hr).
      rewrite (server_bulk_quiet updates ([], []) w Hconv Hq Hinf) in Hr.
      injection Hr as <-. done.
  - intros pre room count post n -> Hpre Hcount [old Hroom] Hcall Hlater.
    rewrite server_bulk_update_state.
    destruct (server_bulk_run pre ([], []) w Hpre) as [r1 H1].
    rewrite (server_bulk_app pre _ ([], []) w Hpre r1) by by rewrite H1.
    rewrite server_bulk_step, Hcount.
    destruct (server_bulk_calls pre ([], []) w Hpre) as (Hc & Ho & _).
    rewrite Ho, Hc. unfold planned in Hcall. rewrite Hcall.
    assert (is_Some (rooms (Server.bulk_loop pre ([], []) w).2 !! trim room)) as [old' ->].
    { apply elem_of_dom. rewrite server_bulk_dom. apply elem_of_dom. by eexists. }
    rewrite server_bulk_frame by done. cbn. apply lookup_insert_eq.
  - intros pre room count post -> Hpre Hcount.
    unfold Server.bulk_update. rewrite catch_run, bind_block.
    by rewrite (server_bulk_abort pre room count post ([], []) w Hpre Hcount).
Qed.

End ServerBulk.

Section Resend.

(** The entries that the loop gets to: those before the first count that
    cannot be converted. *)
Lemma server_bulk_prefix updates :
  ∃ pre post, updates = pre ++ post ∧ convertible pre
              ∧ ∀ results w, (Server.bulk_loop updates results w).2
                             = (Server.bulk_loop pre results w).2.
Proof.
  induction updates as [|[k c] rest (pre & post & -> & Hpre & IH)].
  - exists [], []. split; [done|]. split; [|done]. by intros k v ?%elem_of_nil.
  - destruct (parseInt c) as [parsed|] eqn:Hparse.
    + exists ((k, c) :: pre), post. split; [done|]. split.
      * intros k' c' [[= -> ->]|Hin]%elem_of_cons; [by eexists|]. by apply (Hpre k').
      * intros results w. cbn [app]. rewrite !server_bulk_step, !available_of_parsed.
        rewrite Hparse. cbn [fmap option_fmap option_map].
        destruct (outcome w (calls w)); [apply IH|].
        destruct (rooms w !! trim k); [|apply IH].
        destruct parsed; apply IH.
    + exists [], ((k, c) :: pre ++ post). split; [done|]. split.
      * by intros k' v ?%elem_of_nil.
      * intros results w. by rewrite server_bulk_step, available_of_parsed, Hparse.
Qed.

(** The count that a bulk update of src/server.js leaves for a room type
    that is in the table, when no call fails: the count of the last entry
    that names it with a count that is no infinity, or the old count. *)
Lemma server_bulk_pointwise updates results w r :
  convertible updates →
  quiet (length updates) w →
  rooms (Server.bulk_loop updates results w).2 !! r =
  (λ old, foldl (λ acc u, if String.eqb (trim u.1) r
                          then match parseInt u.2 with
                               | Some (Int n) => n
                               | Some NaN => 0
                               | _ => acc
                               end
                          else acc) old updates) <$> rooms w !! r.
Proof.
  along_server_entries updates results w; intros Hq.
  { cbn. by destruct (rooms w !! r). }
  { apply quiet_first in Hq. congruence. }
  all: rewrite IH by (by apply (quiet_tick _ w));
    cbn [foldl fst snd rooms with_room tick]; rewrite Hparse.
  - rewrite lookup_insert. destruct (String.eqb_spec (trim k) r) as [<-|Hne].
    + rewrite decide_True by done. by rewrite Hroom.
    + by rewrite decide_False.
  - rewrite lookup_insert. destruct (String.eqb_spec (trim k) r) as [<-|Hne].
    + rewrite decide_True by done. by rewrite Hroom.
    + by rewrite decide_False.
  - by destruct (String.eqb (trim k) r).
  - destruct (String.eqb_spec (trim k) r) as [<-|Hne]; [by rewrite Hroom|done].
Qed.

Lemma last_entry_wins (r : string) (updates : list (string * value)) (x : Z) :
  let f := (λ acc (u : string * value),
              if String.eqb (trim u.1) r
              then match parseInt u.2 with
                   | Some (Int n) => n
                   | Some NaN => 0
                   | _ => acc
                   end
              else acc) in
  foldl f (foldl f x updates) updates = foldl f x updates.
Proof.
  intros f.
  assert (∀ a b, foldl f a updates = foldl f b updates
                 ∨ (foldl f a updates = a ∧ foldl f b updates = b)) as H.
  { induction updates as [|u rest IH] using rev_ind; intros a b; [by right|].
    rewrite !foldl_app. cbn [foldl]. subst f. cbn beta.
    destruct (String.eqb (trim u.1) r); [|apply IH].
    destruct (parseInt u.2) as [[n| |negative]|]; try (by left); apply IH. }
  destruct (H (foldl f x updates) x) as [->|[-> _]]; done.
Qed.

(** X14: sending the same bulk update to src/server.js twice in a row, with
    no failing call, leaves the ledger exactly as the first one left it. *)
Theorem server_bulk_update_twice (updates : list (string * value)) (w : db) :
  quiet (length updates + length updates) w →
  rooms (Server.bulk_update updates (Server.bulk_update updates w).2).2
  = rooms (Server.bulk_update updates w).2.
Proof.
  intros Hq. rewrite !server_bulk_update_state.
  destruct (server_bulk_prefix updates) as (pre & post & -> & Hpre & Hstate).
  rewrite !Hstate. rewrite length_app in Hq.
  destruct (server_bulk_calls pre ([], []) w Hpre) as (Hc & Ho & _).
  apply map_eq. intros r.
  rewrite server_bulk_pointwise; [|done|].
  - rewrite server_bulk_pointwise by (done || (intros i Hi; apply Hq; lia)).
    destruct (rooms w !! r) as [old|]; [|done]. cbn. f_equal. apply last_entry_wins.
  - intros i Hi. unfold planned. rewrite Ho, Hc.
    specialize (Hq (i + length pre)%nat ltac:(lia)). unfold planned in Hq.
    by rewrite Nat.add_assoc.
Qed.

End Resend.

(** ** The bulk update of the updated-schema version, call by call *)

Section SchemaCalls.

Lemma schema_bulk_app pre post w :
  (Schema.bulk_calls (pre ++ post) w).2 =
  (Schema.bulk_calls post (Schema.bulk_calls pre w).2).2.
Proof.
  revert w. induction pre as [|[k v] rest IH]; intros w; [done|].
  rewrite <- app_comm_cons, !schema_bulk_step. cbn. apply IH.
Qed.

Lemma schema_bulk_calls_made builders w :
  calls (Schema.bulk_calls builders w).2 = (length builders + calls w)%nat
  ∧ outcome (Schema.bulk_calls builders w).2 = outcome w
  ∧ bookings (Schema.bulk_calls builders w).2 = bookings w.
Proof.
  along_schema_calls builders w; [done|..];
    match goal with |- context [Schema.bulk_calls _ ?w'] =>
      destruct (IH w') as (IH1 & IH2 & IH3) end;
    rewrite IH1, IH2, IH3; cbn; (split; [lia|done]).
Qed.

Lemma schema_bulk_dom builders w :
  dom (rooms (Schema.bulk_calls builders w).2) = dom (rooms w).
Proof.
  along_schema_calls builders w; [done|..]; rewrite IH; cbn; try done.
  by apply dom_insert_lookup_L.
Qed.

Lemma schema_bulk_frame builders w r :
  (∀ k v, (k, v) ∈ builders → k ≠ r) →
  rooms (Schema.bulk_calls builders w).2 !! r = rooms w !! r.
Proof.
  along_schema_calls builders w; [done|..]; intros Hr;
    (rewrite IH; [|intros k' v' Hin; apply (Hr k' v'); by apply list_elem_of_further]);
    cbn; try done.
  apply lookup_insert_ne, (Hr k v), list_elem_of_here.
Qed.

(** A call that fails leaves its message among the errors. *)
Lemma schema_bulk_failure builders w i message :
  (i < length builders)%nat → planned i w = Some message →
  message ∈ omap error (Schema.bulk_calls builders w).1.
Proof.
  revert i. along_schema_calls builders w; intros i Hi Hp; [cbn in Hi; lia|..];
    unfold planned in *; cbn [omap list_omap error];
    (destruct i as [|i];
     [ cbn in Hp; try congruence
     | try apply list_elem_of_further;
       apply (IH _ i); [cbn in Hi; lia|];
       unfold planned; cbn in *; by rewrite Nat.add_succ_r ]).
  replace message with e by congruence. apply list_elem_of_here.
Qed.

(** With no failing call and counts that are integers, no reply carries an
    error. *)
Lemma schema_bulk_quiet builders w :
  quiet (length builders) w →
  (∀ k v, (k, v) ∈ builders → ∃ n, v = Int n) →
  omap error (Schema.bulk_calls builders w).1 = [].
Proof.
  along_schema_calls builders w; intros Hq Hnum; [done|..];
    try (apply quiet_first in Hq; congruence);
    try (destruct (Hnum k v (list_elem_of_here _ _)) as [n' ->]; by destruct (Hparse n'));
    cbn [omap list_omap error]; apply IH;
    try (intros k' v' Hin; apply (Hnum k' v'); by apply list_elem_of_further);
    by apply (quiet_tick _ w).
Qed.

Lemma schema_builders_some updates :
  convertible updates → is_Some (Schema.bulk_builders updates).
Proof.
  induction updates as [|[k c] rest IH]; [by eexists|].
  intros [[n Hn] [bs Hbs]%IH]%convertible_cons. cbn. rewrite Hn, Hbs. by eexists.
Qed.

Lemma schema_builders_none updates :
  Schema.bulk_builders updates = None → ∃ k c, (k, c) ∈ updates ∧ parseInt c = None.
Proof.
  induction updates as [|[k c] rest IH]; [done|]. cbn.
  destruct (parseInt c) as [n|] eqn:Hn.
  - cbn. destruct (Schema.bulk_builders rest) as [bs|]; [done|]. intros _.
    destruct (IH eq_refl) as (k' & c' & Hin & Hc'). exists k', c'.
    split; [by apply list_elem_of_further|done].
  - intros _. exists k, c. split; [apply list_elem_of_here|done].
Qed.

Lemma schema_bulk_update_run updates builders w :
  Schema.bulk_builders updates = Some builders →
  (Schema.bulk_update updates w).2 = (Schema.bulk_calls builders w).2
  ∧ Store.status (Schema.bulk_update updates w).1 =
    if 0 <? Z.of_nat (length (omap error (Schema.bulk_calls builders w).1)) then 500 else 200.
Proof.
  intros Hb. unfold Schema.bulk_update. rewrite catch_run, bind_convert, Hb, bind_lift.
  by destruct (0 <? _).
Qed.

(** X8: the bulk update of the updated-schema version builds all its
    updates before it sends any: a count that cannot be converted makes the
    answer a 500 with nothing sent.  Otherwise it answers for the request as a
    whole, but writes entry by entry.  One failing call makes the answer a
    500; with no failing call and counts that all parse to integers it is a
    200.  Either way an entry whose count parses to an integer, whose room
    type exists and whose own call goes through is written and stays written
    (nothing is rolled back), provided no later entry names the same room
    type; and no room type is added or removed. *)
Theorem schema_bulk_update_effects (updates : list (string * value)) (w : db) :
  dom (rooms (Schema.bulk_update updates w).2) = dom (rooms w)
  ∧ (∀ room count, (room, count) ∈ updates → parseInt count = None →
       Schema.bulk_update updates w = (Schema.update_failed type_error, w))
  ∧ (convertible updates →
     (∀ i e, (i < length updates)%nat → planned i w = Some e →
             Store.status (Schema.bulk_update updates w).1 = 500)
     ∧ (quiet (length updates) w →
        (∀ k c, (k, c) ∈ updates → ∃ n, parseInt c = Some (Int n)) →
        Store.status (Schema.bulk_update updates w).1 = 200)
     ∧ (∀ pre room count post n,
          updates = pre ++ (room, count) :: post →
          parseInt count = Some (Int n) →
          is_Some (rooms w !! room) →
          planned (length pre) w = None →
          (∀ k c, (k, c) ∈ post → k ≠ room) →
          rooms (Schema.bulk_update updates w).2 !! room = Some n)).
Proof.
  split; [|split].
  - rewrite schema_bulk_update_state.
    destruct (Schema.bulk_builders updates); [apply schema_bulk_dom|done].
  - intros room count Hin Hcount.
    assert (Schema.bulk_builders updates = None) as Hb.
    { destruct (Schema.bulk_builders updates) as [bs|] eqn:Hb; [|done].
      apply schema_builders in Hb.
      destruct (list_elem_of_lookup_1 _ _ Hin) as [i Hi].
      destruct (Forall2_lookup_l _ _ _ _ _ Hb Hi) as ([k' v'] & _ & _ & Hv).
      cbn in Hv. congruence. }
    unfold Schema.bulk_update. by rewrite catch_run, bind_convert, Hb.
  - intros Hconv. destruct (schema_builders_some updates Hconv) as [builders Hb].
    destruct (schema_bulk_update_run updates builders w Hb) as [-> ->].
    pose proof (schema_builders updates builders Hb) as Hall.
    pose proof (Forall2_length _ _ _ Hall) as Hlen.
    split; [|split].
    + intros i e Hi Hp. rewrite Hlen in Hi.
      pose proof (schema_bulk_failure builders w i e Hi Hp) as Hin.
      destruct (omap error _); [by apply elem_of_nil in Hin|done].
    + intros Hq Hnum. rewrite Hlen in Hq. rewrite schema_bulk_quiet; [done|done|].
      intros k v Hin.
      destruct (schema_builders_elem updates builders k v Hb Hin) as (c & Hc & Hparse).
      destruct (Hnum k c Hc) as [n Hn]. exists n. congruence.
    + intros pre room count post n -> Hn Hroom Hcall Hlater.
      apply Forall2_app_inv_l in Hall as (bpre & brest & Hpre & Hrest & ->).
      apply Forall2_cons_inv_l in Hrest as ([k' v'] & bpost & [Hk Hv] & Hpost & ->).
      cbn in Hk, Hv. subst k'. assert (v' = Int n) as -> by congruence.
      rewrite schema_bulk_app, schema_bulk_step. cbn [snd].
      rewrite update_available_select_run.
      destruct (schema_bulk_calls_made bpre w) as (Hc & Ho & _).
      rewrite Ho, Hc, <- (Forall2_length _ _ _ Hpre). unfold planned in Hcall. rewrite Hcall.
      assert (is_Some (rooms (Schema.bulk_calls bpre w).2 !! room)) as [old' ->].
      { apply elem_of_dom. rewrite schema_bulk_dom. by apply elem_of_dom. }
      rewrite schema_bulk_frame; [cbn; apply lookup_insert_eq|].
      intros k v Hin.
      destruct (list_elem_of_lookup_1 _ _ Hin) as [i Hi].
      destruct (Forall2_lookup_r _ _ _ _ _ Hpost Hi) as ([k0 c0] & Hi0 & Hk0 & _).
      cbn in Hk0. subst k0. apply (Hlater k c0). by apply list_elem_of_lookup_2 in Hi0.
Qed.

End SchemaCalls.

(** ** Reading the availability, and the single-room update *)

Section Availability.

Lemma foldl_skip_reverse (rows : list (string * Z)) (acc : gmap string Z) :
  foldl (λ availMap r, if String.eqb r.1 "__proto__" then availMap
                       else <[r.1 := r.2]> availMap) acc rows
  = foldr (λ r availMap, if String.eqb r.1 "__proto__" then availMap
                         else <[r.1 := r.2]> availMap) acc (reverse rows).
Proof.
  revert acc. induction rows as [|r rows IH]; intros acc; [done|].
  rewrite reverse_cons, foldr_app. cbn. apply IH.
Qed.

Lemma foldr_skip (rows : list (string * Z)) :
  foldr (λ r availMap, if String.eqb r.1 "__proto__" then availMap
                       else <[r.1 := r.2]> availMap) (∅ : gmap string Z) rows
  = delete "__proto__" (list_to_map rows).
Proof.
  induction rows as [|[k v] rows IH]; [cbn; by rewrite delete_empty|].
  cbn. rewrite IH. destruct (String.eqb_spec k "__proto__") as [->|Hne].
  - by rewrite delete_insert_eq.
  - by rewrite delete_insert_ne.
Qed.

(** Whatever the order of the rows, the object built from the rows of the
    table is the table without a row named [__proto__]. *)
Lemma availability_object_rows (m : gmap string Z) rows :
  rows ≡ₚ map_to_list m → availability_object rows = delete "__proto__" m.
Proof.
  intros Hrows. unfold availability_object. rewrite foldl_skip_reverse, foldr_skip.
  f_equal. symmetry. apply (list_to_map_flip m (reverse rows)).
  by rewrite reverse_Permutation.
Qed.

Lemma select_rooms_run w :
  select_rooms w =
  (match outcome w (calls w) with
   | Some e => {| data := None; error := Some e |}
   | None => {| data := Some (map_to_list (rooms w)); error := None |}
   end, tick w).
Proof.
  unfold select_rooms, next_outcome. rewrite bind_run. cbn.
  by destruct (outcome w (calls w)).
Qed.

Lemma get_availability_ok w :
  outcome w (calls w) = None →
  Server.get_availability w = (inl (delete "__proto__" (rooms w)), tick w)
  ∧ Production.get_availability w = (inl (delete "__proto__" (rooms w)), tick w)
  ∧ Schema.get_availability w = (inl (delete "__proto__" (rooms w)), tick w).
Proof.
  intros H0.
  unfold Server.get_availability, Production.get_availability, Schema.get_availability.
  rewrite !bind_run, select_rooms_run, H0. cbn.
  by rewrite (availability_object_rows (rooms w)).
Qed.

(** X9: [GET /api/availability] of the three Supabase versions sends the
    ledger, every room type with its count except one named [__proto__], when
    the call goes through, and a 500 response when it fails; it changes
    neither table. *)
Theorem get_availability_is_the_ledger (w : db) :
  (planned 0 w = None →
   Server.get_availability w = (inl (delete "__proto__" (rooms w)), tick w)
   ∧ Production.get_availability w = (inl (delete "__proto__" (rooms w)), tick w)
   ∧ Schema.get_availability w = (inl (delete "__proto__" (rooms w)), tick w))
  ∧ (∀ e, planned 0 w = Some e →
          (∃ r, Server.get_availability w = (inr r, tick w) ∧ Store.status r = 500)
          ∧ (∃ r, Production.get_availability w = (inr r, tick w) ∧ Store.status r = 500
                  ∧ mentions (Store.body r) e = true)
          ∧ (∃ r, Schema.get_availability w = (inr r, tick w) ∧ Store.status r = 500
                  ∧ mentions (Store.body r) e = true)).
Proof.
  unfold planned. cbn. split; [apply get_availability_ok|].
  intros e H0.
  unfold Server.get_availability, Production.get_availability, Schema.get_availability.
  rewrite !bind_run, select_rooms_run, H0. cbn.
  pose proof (includes_self e) as He.
  repeat split; eexists; (split; [reflexivity|]); cbn; rewrite ?He, ?orb_true_r; done.
Qed.

Lemma schema_single_update_run b w :
  truthy (get b "room_type") = true → get b "available" ≠ Undefined →
  Schema.update_availability b w =
  match parseInt (get b "available"), to_string (get b "room_type") with
  | Some v, Some rt =>
      match outcome w (calls w) with
      | Some e => (Schema.update_failed e, tick w)
      | None =>
          match rooms w !! rt, v with
          | None, _ => (Schema.update_failed no_rows, tick w)
          | Some _, Int n => (Schema.updated (rt, n), with_room rt n (tick w))
          | Some _, _ => (Schema.update_failed null_available, tick w)
          end
      end
  | _, _ => (Schema.update_failed type_error, w)
  end.
Proof.
  intros Hrt Hav. unfold Schema.update_availability. rewrite catch_run, Hrt.
  rewrite (not_undefined _ Hav). cbn [negb orb]. rewrite bind_convert.
  destruct (parseInt (get b "available")) as [v|]; [|done]. rewrite bind_convert.
  destruct (to_string (get b "room_type")) as [rt|]; [|done].
  rewrite bind_lift, update_available_select_run.
  destruct (outcome w (calls w)); [done|].
  destruct (rooms w !! rt); [|done]. by destruct v.
Qed.

(** X10: [POST /api/rooms/update-availability] of the updated-schema
    version.  Without a room type or without [available] it answers 400 and
    calls nothing; with a room type or a count that cannot be converted it
    answers 500 and calls nothing.  Otherwise, for a call that goes through: a
    room type that is not in the table gives a 500 and no change (there is no
    404 here); a room type that is there takes the parsed count, negative or
    not, and [GET /api/availability] right after shows that count for it with
    every other room type as before. *)
Theorem update_availability_effects (w : db) (b : gmap string value) :
  (truthy (get b "room_type") = false ∨ get b "available" = Undefined →
   Schema.update_availability b w = (Schema.missing_fields, w))
  ∧ (truthy (get b "room_type") = true → get b "available" ≠ Undefined →
     (parseInt (get b "available") = None ∨ to_string (get b "room_type") = None →
      Schema.update_availability b w = (Schema.update_failed type_error, w))
     ∧ ∀ rt v,
         to_string (get b "room_type") = Some rt → parseInt (get b "available") = Some v →
         planned 0 w = None →
         (rooms w !! rt = None →
          Schema.update_availability b w = (Schema.update_failed no_rows, tick w))
         ∧ (∀ n, is_Some (rooms w !! rt) → v = Int n →
                 (Schema.update_availability b w).1 = Schema.updated (rt, n)
                 ∧ (planned 1 w = None →
                    (Schema.get_availability (Schema.update_availability b w).2).1
                    = inl (delete "__proto__" (<[rt := n]> (rooms w)))))).
Proof.
  split.
  - intros [H|H]; unfold Schema.update_availability; rewrite catch_run, H; cbn; [done|].
    by rewrite orb_true_r.
  - intros Hrt Hav. rewrite (schema_single_update_run b w Hrt Hav). split.
    + intros [-> | ->]; [done|]. by destruct (parseInt _).
    + intros rt v -> -> H0. unfold planned in *. cbn in *. rewrite H0. split.
      * by intros ->.
      * intros n [old ->] ->. split; [done|]. intros H1. cbn [snd].
        by destruct (get_availability_ok (with_room rt n (tick w)) H1) as (_ & _ & ->).
Qed.

End Availability.

(** ** The file store *)

Section FileStoreProperties.

(** X11: the booking handler of the file store, for a room type whose cached
    count reads as the integer [N] and a quantity that reads as [q].  With
    [q > N] the request is refused with status 400 and nothing changes, no
    write included.  With [q ≤ N] it is accepted: the cache holds [N - q] for
    the room type, [GET /api/bookings] lists the new booking first and the
    older ones after it, and two writes are issued, the availability with the
    new count and then the bookings with the new booking. *)
Theorem file_store_booking_paths
    (req : FileStore.request) (s : FileStore.store) (key : string) (v : value) (N q : Z) :
  FileStore.key req = Some key →
  FileStore.availabilityCache s !! key = Some v →
  v ≠ Undefined → parseInt v = Some (Int N) → FileStore.requestedQty req = Some (Int q) →
  (N < q →
   FileStore.status (FileStore.post_bookings req s).1 = 400
   ∧ (FileStore.post_bookings req s).2 = s)
  ∧ (q ≤ N →
     FileStore.status (FileStore.post_bookings req s).1 = 200
     ∧ FileStore.get_availability (FileStore.post_bookings req s).2
       = <[key := Num (Int (N - q))]> (FileStore.availabilityCache s)
     ∧ FileStore.get_bookings (FileStore.post_bookings req s).2
       = FileStore.booking_of req :: FileStore.get_bookings s
     ∧ FileStore.writes (FileStore.post_bookings req s).2
       = FileStore.writes s
         ++ [FileStore.WriteAvailability
               (FileStore.get_availability (FileStore.post_bookings req s).2);
             FileStore.WriteBookings
               (FileStore.get_bookings (FileStore.post_bookings req s).2)]).
Proof.
  intros Hkey Hv Hne HN Hq. rewrite (filestore_known req s key v Hkey Hv Hne), HN, Hq.
  split; intros Hcmp.
  - by rewrite exceeds.
  - rewrite covers by done. cbn. rewrite (assign_own _ _ _ _ Hv).
    by rewrite <- app_assoc.
Qed.

Lemma post_availability_decrement b s key qty :
  truthy (get b "roomType") = true → get b "quantity" ≠ Undefined →
  to_string (get b "roomType") = Some key → parseInt (get b "quantity") = Some qty →
  FileStore.post_availability b s =
  let stored := lookup (FileStore.availabilityCache s) key in
  if defined stored
  then match FileStore.minus stored qty with
       | Some (Some d) =>
           Some (FileStore.Sent
                   (FileStore.availabilityCache (FileStore.set_available key (max0 d) s)),
                 FileStore.persistAvailability (FileStore.set_available key (max0 d) s))
       | Some None => None
       | None => Some (FileStore.Uncaught, s)
       end
  else Some (FileStore.Sent (FileStore.availabilityCache s), FileStore.persistAvailability s).
Proof.
  intros Hrt Hq Hkey Hqty. unfold FileStore.post_availability.
  by rewrite Hrt, (not_undefined _ Hq), Hkey, Hqty.
Qed.

(** X12: [POST /api/availability] of the file store, wherever the model
    defines it.  With a room type and a quantity that can be converted it
    takes the quantity out of the cached count and stops at zero instead of
    refusing: a count [n] below 2^53 and a quantity read as [q] leave
    [max 0 (n - q)]; a room type that is no property of the cache, inherited
    ones included, changes nothing.  Without them, a body that has a "Family
    Room" entry replaces the whole cache, and any other body changes nothing.
    Whenever the handler answers with data, the data is the cache after the
    request, one write of it is issued, and the bookings are left alone; when
    it throws, nothing changes and nothing is written. *)
Theorem post_availability_effects (b : gmap string value) (s : FileStore.store) :
  (truthy (get b "roomType") = true → get b "quantity" ≠ Undefined →
   ∀ key qty,
     to_string (get b "roomType") = Some key → parseInt (get b "quantity") = Some qty →
     (∀ n q, FileStore.availabilityCache s !! key = Some (Num (Int n)) →
             Z.abs n < 2 ^ 53 → qty = Int q →
             FileStore.post_availability b s
             = Some (FileStore.Sent (<[key := Num (Int (Z.max 0 (n - q)))]>
                                       (FileStore.availabilityCache s)),
                     FileStore.persistAvailability
                       (FileStore.set_available key (Int (Z.max 0 (n - q))) s)))
     ∧ (lookup (FileStore.availabilityCache s) key = Missing →
        FileStore.post_availability b s
        = Some (FileStore.Sent (FileStore.availabilityCache s),
                FileStore.persistAvailability s)))
  ∧ (truthy (get b "roomType") = false ∨ get b "quantity" = Undefined →
     (get b "Family Room" ≠ Undefined →
      FileStore.post_availability b s
      = Some (FileStore.Sent b, FileStore.persistAvailability (FileStore.override b s)))
     ∧ (get b "Family Room" = Undefined →
        FileStore.post_availability b s
        = Some (FileStore.Sent (FileStore.availabilityCache s),
                FileStore.persistAvailability s)))
  ∧ (∀ sent s',
       FileStore.post_availability b s = Some (sent, s') →
       match sent with
       | FileStore.Sent data =>
           data = FileStore.get_availability s'
           ∧ FileStore.writes s' = FileStore.writes s ++ [FileStore.WriteAvailability data]
           ∧ FileStore.get_bookings s' = FileStore.get_bookings s
       | FileStore.Uncaught => s' = s
       end).
Proof.
  split; [|split].
  - intros Hrt Hq key qty Hkey Hqty.
    rewrite (post_availability_decrement b s key qty Hrt Hq Hkey Hqty). cbn zeta. split.
    + intros n q Hn Hsafe ->. rewrite (lookup_own _ _ _ Hn). cbn [defined FileStore.minus].
      unfold FileStore.to_number. rewrite double_safe by done. cbn.
      by rewrite (assign_own _ _ _ _ Hn).
    + by intros ->.
  - intros Hnot. unfold FileStore.post_availability.
    assert (truthy (get b "roomType") && negb (strict_eq (get b "quantity") Undefined) = false)
      as ->.
    { destruct Hnot as [-> | ->]; [done|]. apply andb_false_r. }
    split.
    + intros Hf. by rewrite (not_undefined _ Hf).
    + by intros ->.
  - intros sent s'. unfold FileStore.post_availability.
    repeat case_match; intros; simplify_eq; done.
Qed.

(** X15: in the file store a count that is not a number never comes back.
    A booking whose quantity parses to NaN turns the count of its room type
    into NaN; and once the cached value reads as NaN, every booking request
    for that room type whose quantity can be converted is accepted, whatever
    the quantity, and the count stays NaN. *)
Theorem file_store_nan_stays
    (req : FileStore.request) (s : FileStore.store) (key : string) (v : value)
    (currentStock requestedQty : num) :
  FileStore.key req = Some key →
  FileStore.availabilityCache s !! key = Some v →
  v ≠ Undefined →
  parseInt v = Some currentStock → FileStore.requestedQty req = Some requestedQty →
  currentStock = NaN ∨ requestedQty = NaN →
  FileStore.status (FileStore.post_bookings req s).1 = 200
  ∧ FileStore.availabilityCache (FileStore.post_bookings req s).2 !! key = Some (Num NaN)
  ∧ parseInt (Num NaN) = Some NaN.
Proof.
  intros Hkey Hv Hne Hstock Hq Hnan.
  rewrite (filestore_known req s key v Hkey Hv Hne), Hstock, Hq.
  assert (lt currentStock requestedQty = false
          ∧ sub currentStock requestedQty = NaN) as [-> ->].
  { destruct Hnan as [-> | ->]; [done|]. by destruct currentStock as [?| |[]]. }
  split; [done|]. split; [|done]. cbn.
  rewrite (assign_own _ _ _ _ Hv). apply lookup_insert_eq.
Qed.

End FileStoreProperties.

Section FileStoreSequence.

Lemma rooms_booked_cons key k ks :
  FileStore.rooms_booked key (k :: ks) =
  match to_string (FileStore.room_type k), parseInt (FileStore.quantity k) with
  | Some name, Some (Int q) =>
      if String.eqb name key
      then q + FileStore.rooms_booked key ks
      else FileStore.rooms_booked key ks
  | _, _ => FileStore.rooms_booked key ks
  end.
Proof. reflexivity. Qed.

Lemma save_caches k s :
  FileStore.availabilityCache (FileStore.save k s).2 = FileStore.availabilityCache s
  ∧ FileStore.bookingsCache (FileStore.save k s).2 = k :: FileStore.bookingsCache s.
Proof. done. Qed.

(** One booking request on a cache of non-negative integer counts, for a
    room type that is no inherited name and a quantity that is no negative
    number: the counts stay so, and for every cached room type the count and
    the rooms booked of it add up to what they added up to before. *)
Lemma file_store_booking_conserves req s key q :
  FileStore.counted s →
  FileStore.key req = Some key → inherited key = false →
  FileStore.requestedQty req = Some (Int q) → 0 ≤ q →
  FileStore.counted (FileStore.post_bookings req s).2
  ∧ ∀ key' N, FileStore.stock s key' = Some N →
      ∃ N', FileStore.stock (FileStore.post_bookings req s).2 key' = Some N'
            ∧ N' + FileStore.rooms_booked key'
                     (FileStore.bookingsCache (FileStore.post_bookings req s).2)
              = N + FileStore.rooms_booked key' (FileStore.bookingsCache s).
Proof.
  intros Hs Hkey Hplain Hq Hpos.
  assert (to_string (FileStore.room_type (FileStore.booking_of req)) = Some key) as Hroom
    by exact Hkey.
  assert (parseInt (FileStore.quantity (FileStore.booking_of req)) = Some (Int q))
    as Hquantity by exact Hq.
  destruct (FileStore.availabilityCache s !! key) as [v|] eqn:Hv.
  - destruct (Hs _ _ Hv) as (n & -> & Hn).
    rewrite (filestore_known req s key (Num (Int n)) Hkey Hv) by done.
    rewrite parseInt_number, Hq by lia.
    change (lt (Int n) (Int q)) with (n <? q).
    destruct (Z.ltb_spec n q) as [Hlt|Hle].
    { split; [done|]. intros key' N HN. by exists N. }
    unfold FileStore.counted, FileStore.stock.
    rewrite (proj1 (save_caches _ _)), (proj2 (save_caches _ _)).
    setoid_rewrite rooms_booked_cons. rewrite Hroom, Hquantity.
    cbn [FileStore.availabilityCache FileStore.persistAvailability FileStore.set_available
         FileStore.bookingsCache sub].
    rewrite (assign_own _ _ _ _ Hv). split.
    + intros key' v. rewrite lookup_insert. case_decide.
      * intros [= <-]. exists (n - q). split; [done|lia].
      * apply Hs.
    + intros key' N. rewrite lookup_insert. case_decide as Hkey'.
      * subst key'. rewrite Hv, String.eqb_refl. intros [= <-]. exists (n - q).
        split; [done|]. lia.
      * destruct (String.eqb_spec key key'); [done|].
        destruct (FileStore.availabilityCache s !! key') as [[| |?|[N'| |?]|?|?|?]|];
          try done. intros [= <-]. by exists N'.
  - rewrite (filestore_unknown req s key Hkey); [|by eexists|].
    2:{ unfold lookup. by rewrite Hv, Hplain. }
    split; [done|].
    intros key' N HN. exists N. split; [done|].
    rewrite (proj2 (save_caches _ _)), rooms_booked_cons, Hroom, Hquantity.
    destruct (String.eqb_spec key key') as [<-|]; [|done].
    unfold FileStore.stock in HN. by rewrite Hv in HN.
Qed.

Lemma post_all_cons req rest s :
  FileStore.post_all (req :: rest) s =
  ((FileStore.post_bookings req s).1
     :: (FileStore.post_all rest (FileStore.post_bookings req s).2).1,
   (FileStore.post_all rest (FileStore.post_bookings req s).2).2).
Proof.
  cbn. destruct (FileStore.post_bookings req s) as [r s1]. cbn.
  by destruct (FileStore.post_all rest s1).
Qed.

(** X13: the file store handles booking requests one at a time, and over any
    sequence of requests for room types that are no inherited names, with
    quantities that parse to integers that are not negative, it never
    oversells: starting from a cache of non-negative integer counts, every
    count stays a non-negative integer, and for every cached room type the
    rooms left plus the rooms of the bookings stored for it stay equal to what
    they were at the start.  Every request gets its answer. *)
Theorem file_store_never_oversells (reqs : list FileStore.request) (s : FileStore.store) :
  FileStore.counted s →
  (∀ req, req ∈ reqs →
          ∃ key q, FileStore.key req = Some key ∧ inherited key = false
                   ∧ FileStore.requestedQty req = Some (Int q) ∧ 0 ≤ q) →
  length (FileStore.post_all reqs s).1 = length reqs
  ∧ FileStore.counted (FileStore.post_all reqs s).2
  ∧ ∀ key N, FileStore.stock s key = Some N →
      ∃ N', FileStore.stock (FileStore.post_all reqs s).2 key = Some N'
            ∧ 0 ≤ N'
            ∧ N' + FileStore.rooms_booked key
                     (FileStore.bookingsCache (FileStore.post_all reqs s).2)
              = N + FileStore.rooms_booked key (FileStore.bookingsCache s).
Proof.
  revert s. induction reqs as [|req rest IH]; intros s Hs Hreqs.
  - cbn. split; [done|]. split; [done|]. intros key N HN. exists N.
    split; [done|]. split; [|done].
    unfold FileStore.stock in HN.
    destruct (FileStore.availabilityCache s !! key) as [v|] eqn:Hv; [|done].
    destruct (Hs _ _ Hv) as (n & -> & Hn). injection HN as <-. lia.
  - destruct (Hreqs req (list_elem_of_here _ _)) as (key & q & Hkey & Hplain & Hq & Hpos).
    destruct (file_store_booking_conserves req s key q Hs Hkey Hplain Hq Hpos) as [Hs1 Hstep].
    destruct (IH (FileStore.post_bookings req s).2 Hs1) as (Hlen & Hs2 & Hrest).
    { intros r Hr. apply Hreqs. by apply list_elem_of_further. }
    rewrite post_all_cons. cbn [fst snd length]. split; [by rewrite Hlen|].
    split; [done|]. intros key' N HN.
    destruct (Hstep key' N HN) as (N1 & HN1 & Hsum1).
    destruct (Hrest key' N1 HN1) as (N2 & HN2 & Hpos2 & Hsum2).
    exists N2. split; [done|]. split; [done|]. lia.
Qed.

End FileStoreSequence.

(** ** The further properties at sample inputs *)

Section MoreSamples.

Lemma booking_touches_one_room_type_sample :
  dom (rooms (Server.post_bookings (Sample.request (Str "Suite") (Str "2"))
                (Sample.world Sample.never)).2) = dom Sample.ledger
  ∧ rooms (Schema.post_bookings (Sample.request (Str "Suite") (Str "2"))
             (Sample.world Sample.never)).2 !! "Twin Room" = None.
Proof.
  split.
  - apply (booking_touches_one_room_type (Sample.world Sample.never)
             (Sample.request (Str "Suite") (Str "2"))).
  - apply (proj2 (proj2 (proj2 (booking_touches_one_room_type (Sample.world Sample.never)
                                  (Sample.request (Str "Suite") (Str "2"))))) "Twin Room").
    discriminate.
Defined.

Lemma refused_booking_keeps_ledger_sample :
  rooms (Server.post_bookings (Sample.request (Str "Suite") (Str "2"))
           (Sample.world Sample.insert_fails)).2 = Sample.ledger
  ∧ rooms (Schema.post_bookings (Sample.request (Str "Suite") (Str "5"))
             (Sample.world Sample.never)).2 = Sample.ledger.
Proof.
  split.
  - apply (proj1 (refused_booking_keeps_ledger (Sample.world Sample.insert_fails)
                    (Sample.request (Str "Suite") (Str "2")) eq_refl)
             (ex_intro _ NaN eq_refl)).
    discriminate.
  - apply (proj2 (proj2 (refused_booking_keeps_ledger (Sample.world Sample.never)
                           (Sample.request (Str "Suite") (Str "5")) eq_refl))).
    discriminate.
Defined.

Lemma early_store_failures_sample :
  Server.post_bookings (Sample.request (Str "Suite") (Str "2"))
    (Sample.world (Sample.fails_at 0 "connection lost"))
  = (Server.not_found, tick (Sample.world (Sample.fails_at 0 "connection lost")))
  ∧ Server.post_bookings (Sample.request (Str "Suite") (Str "2"))
      (Sample.world (Sample.fails_at 1 "write refused"))
    = (Server.caught "write refused",
       tick (tick (Sample.world (Sample.fails_at 1 "write refused")))).
Proof.
  split.
  - exact (proj1 (proj1 (early_store_failures
                           (Sample.world (Sample.fails_at 0 "connection lost"))
                           (Sample.request (Str "Suite") (Str "2")) "Suite" "connection lost")
                    eq_refl)
             (ex_intro _ "Ada" eq_refl) eq_refl).
  - apply (proj1 (proj2 (early_store_failures (Sample.world (Sample.fails_at 1 "write refused"))
                           (Sample.request (Str "Suite") (Str "2")) "Suite" "write refused")
                    eq_refl eq_refl 3 2 eq_refl ltac:(lia))
             (ex_intro _ "Ada" eq_refl) eq_refl eq_refl).
Defined.




Lemma convertible_two_counts : convertible Sample.two_counts.
Proof.
  intros k v Hin. apply elem_of_cons in Hin as [[= -> ->]|Hin]; [by eexists|].
  apply list_elem_of_singleton in Hin as [= -> ->]. by eexists.
Defined.

Lemma convertible_nil : convertible [].
Proof. intros k v Hin. by apply not_elem_of_nil in Hin. Defined.

Lemma convertible_suite : convertible [("Suite", Num (Int 5))].
Proof. intros k v Hin. apply list_elem_of_singleton in Hin as [= -> ->]. by eexists. Defined.

Lemma server_bulk_update_effects_sample :
  rooms (Server.bulk_update Sample.two_counts (Sample.world (Sample.fails_at 1 "timeout"))).2
  !! "Suite" = Some 5
  ∧ (Server.bulk_update Sample.two_counts (Sample.world Sample.never)).1
    = {| Store.status := 200;
         Store.body := Obj [("success", Bool true); ("message", Str "All rooms synced")] |}
  ∧ Server.bulk_update Sample.odd_sheet (Sample.world Sample.never)
    = (Server.sync_failed,
       (Server.bulk_loop [("Suite", Num (Int 5))] ([], []) (Sample.world Sample.never)).2).
Proof.
  split; [|split].
  - apply (proj1 (proj2 (proj2 (server_bulk_update_effects Sample.two_counts
                                  (Sample.world (Sample.fails_at 1 "timeout")))))
             [] "Suite" (Str "5") [("Twin Room", Num (Int 9))] 5);
      [reflexivity | exact convertible_nil | reflexivity | by eexists | reflexivity |].
    intros k c Hin. apply list_elem_of_singleton in Hin as [= -> ->]. discriminate.
  - apply (proj2 (proj1 (proj2 (server_bulk_update_effects Sample.two_counts
                                  (Sample.world Sample.never)))
                    convertible_two_counts)).
    + intros i _. reflexivity.
    + intros k c negative Hin. apply elem_of_cons in Hin as [[= -> ->]|Hin]; [discriminate|].
      apply list_elem_of_singleton in Hin as [= -> ->]. discriminate.
  - apply (proj2 (proj2 (proj2 (server_bulk_update_effects Sample.odd_sheet
                                  (Sample.world Sample.never))))
             [("Suite", Num (Int 5))] "Twin Room" Sample.unconvertible
             [("Suite", Num (Int 7))]);
      [reflexivity | exact convertible_suite | reflexivity].
Defined.

Lemma schema_bulk_update_effects_sample :
  Store.status
    (Schema.bulk_update Sample.two_counts (Sample.world (Sample.fails_at 1 "timeout"))).1 = 500
  ∧ rooms (Schema.bulk_update Sample.two_counts
             (Sample.world (Sample.fails_at 1 "timeout"))).2 !! "Suite" = Some 5
  ∧ Schema.bulk_update Sample.odd_sheet (Sample.world Sample.never)
    = (Schema.update_failed type_error, Sample.world Sample.never).
Proof.
  split; [|split].
  - apply (proj1 (proj2 (proj2 (schema_bulk_update_effects Sample.two_counts
                                  (Sample.world (Sample.fails_at 1 "timeout"))))
                    convertible_two_counts)
             1%nat "timeout"); [cbn; lia | reflexivity].
  - apply (proj2 (proj2 (proj2 (proj2 (schema_bulk_update_effects Sample.two_counts
                                         (Sample.world (Sample.fails_at 1 "timeout"))))
                           convertible_two_counts))
             [] "Suite" (Str "5") [("Twin Room", Num (Int 9))] 5);
      [reflexivity | reflexivity | by eexists | reflexivity |].
    intros k c Hin. apply list_elem_of_singleton in Hin as [= -> ->]. discriminate.
  - apply (proj1 (proj2 (schema_bulk_update_effects Sample.odd_sheet
                           (Sample.world Sample.never)))
             "Twin Room" Sample.unconvertible);
      [apply list_elem_of_further, list_elem_of_here | reflexivity].
Defined.

Lemma get_availability_is_the_ledger_sample :
  Server.get_availability (Sample.world Sample.never)
  = (inl (delete "__proto__" Sample.ledger), tick (Sample.world Sample.never)).
Proof.
  exact (proj1 (proj1 (get_availability_is_the_ledger (Sample.world Sample.never)) eq_refl)).
Defined.

Lemma update_availability_effects_sample :
  (Schema.update_availability Sample.set_suite (Sample.world Sample.never)).1
  = Schema.updated ("Suite", 10)
  ∧ (Schema.get_availability
       (Schema.update_availability Sample.set_suite (Sample.world Sample.never)).2).1
    = inl (delete "__proto__" (<["Suite" := 10]> Sample.ledger)).
Proof.
  pose proof (proj2 (proj2 (proj2 (update_availability_effects (Sample.world Sample.never)
                                     Sample.set_suite) eq_refl ltac:(discriminate))
                       "Suite" (Int 10) eq_refl eq_refl eq_refl)
                10 (ex_intro _ 3 eq_refl) eq_refl) as [H1 H2].
  split; [exact H1 | exact (H2 eq_refl)].
Defined.

Lemma file_store_booking_paths_sample :
  FileStore.status
    (FileStore.post_bookings (Sample.form (Str "Suite Room") (Str "2")) Sample.cache).1 = 200
  ∧ FileStore.get_availability
      (FileStore.post_bookings (Sample.form (Str "Suite Room") (Str "2")) Sample.cache).2
    = <["Suite Room" := Num (Int 1)]> (FileStore.availabilityCache Sample.cache)
  ∧ FileStore.get_bookings
      (FileStore.post_bookings (Sample.form (Str "Suite Room") (Str "2")) Sample.cache).2
    = [FileStore.booking_of (Sample.form (Str "Suite Room") (Str "2"))].
Proof.
  pose proof (proj2 (file_store_booking_paths (Sample.form (Str "Suite Room") (Str "2"))
                       Sample.cache "Suite Room" (Num (Int 3)) 3 2 eq_refl eq_refl
                       ltac:(discriminate) eq_refl eq_refl) ltac:(lia)) as (H1 & H2 & H3 & _).
  split; [exact H1|]. split; [exact H2 | exact H3].
Defined.

Lemma post_availability_effects_sample :
  FileStore.post_availability Sample.take_five Sample.cache
  = Some (FileStore.Sent (<["Suite Room" := Num (Int 0)]>
                            (FileStore.availabilityCache Sample.cache)),
          FileStore.persistAvailability
            (FileStore.set_available "Suite Room" (Int 0) Sample.cache)).
Proof.
  apply (proj1 (proj1 (post_availability_effects Sample.take_five Sample.cache)
                  eq_refl ltac:(discriminate) "Suite Room" (Int 5) eq_refl eq_refl) 3 5);
    [reflexivity | reflexivity | reflexivity].
Defined.

Lemma counted_cache : FileStore.counted Sample.cache.
Proof.
  intros key v. unfold Sample.cache. cbn. rewrite lookup_singleton_Some.
  intros [_ <-]. exists 3. split; [reflexivity | split; [lia | reflexivity]].
Defined.

Lemma file_store_never_oversells_sample :
  length (FileStore.post_all [Sample.form (Str "Suite Room") (Str "2");
                              Sample.form (Str "Suite Room") (Str "2")] Sample.cache).1
  = 2%nat
  ∧ ∃ N', FileStore.stock
            (FileStore.post_all [Sample.form (Str "Suite Room") (Str "2");
                                 Sample.form (Str "Suite Room") (Str "2")] Sample.cache).2
            "Suite Room" = Some N'
          ∧ 0 ≤ N'
          ∧ N' + FileStore.rooms_booked "Suite Room"
                   (FileStore.bookingsCache
                      (FileStore.post_all [Sample.form (Str "Suite Room") (Str "2");
                                           Sample.form (Str "Suite Room") (Str "2")]
                         Sample.cache).2)
            = 3 + 0.
Proof.
  destruct (file_store_never_oversells
              [Sample.form (Str "Suite Room") (Str "2");
               Sample.form (Str "Suite Room") (Str "2")] Sample.cache counted_cache)
    as (Hlen & _ & Hsum).
  - intros req Hin. exists "Suite Room", 2.
    apply elem_of_cons in Hin as [->|Hin];
      [repeat split; (reflexivity || lia)|].
    apply list_elem_of_singleton in Hin as ->. repeat split; (reflexivity || lia).
  - split; [exact Hlen|]. exact (Hsum "Suite Room" 3 eq_refl).
Defined.

Lemma server_bulk_update_twice_sample :
  rooms (Server.bulk_update Sample.sheet
           (Server.bulk_update Sample.sheet (Sample.world Sample.never)).2).2
  = rooms (Server.bulk_update Sample.sheet (Sample.world Sample.never)).2.
Proof.
  apply (server_bulk_update_twice Sample.sheet (Sample.world Sample.never)).
  intros i _. reflexivity.
Defined.

Lemma file_store_nan_stays_sample :
  FileStore.status
    (FileStore.post_bookings (Sample.form (Str "Suite Room") (Str "a few")) Sample.cache).1
  = 200
  ∧ FileStore.availabilityCache
      (FileStore.post_bookings (Sample.form (Str "Suite Room") (Str "a few")) Sample.cache).2
    !! "Suite Room" = Some (Num NaN)
  ∧ parseInt (Num NaN) = Some NaN.
Proof.
  apply (file_store_nan_stays (Sample.form (Str "Suite Room") (Str "a few")) Sample.cache
           "Suite Room" (Num (Int 3)) (Int 3) NaN eq_refl eq_refl);
    [discriminate | reflexivity | reflexivity | right; reflexivity].
Defined.

End MoreSamples.
